(** * Series adapters of narwhals: a shallow embedding

    The adapters under [narwhals/_polars/series.py] and
    [narwhals/_pandas_like/series.py] wrap one native series each and route
    every call to the native engine.  The engines themselves (polars, pandas)
    are external libraries: their operations enter the development as section
    variables, and where a property needs the engine's documented behaviour it
    is stated as a hypothesis of the section and discharged on a small
    executable list model. *)

From Stdlib Require Import ZArith String List Bool Lia DecimalString Floats.
From stdpp Require Import base option list gmap strings.
Import ListNotations.

Open Scope string_scope.
Open Scope list_scope.
Open Scope Z_scope.

(** ** Python preliminaries *)

Module Py.

(** Exceptions that cross the adapter boundary.  [NotImplementedError],
    [AttributeError] and [TypeError] are Python built-ins;
    [InvalidOperationError] is the class of [narwhals/exceptions.py];
    [NativeException] stands for whatever the wrapped engine raises;
    [ShapeMismatch] and [CrossEngineOperand] are the two operand-validation
    failures of the comparand aligner. *)
Inductive exn : Type :=
| AttributeError
| NotImplementedError (msg : string)
| InvalidOperationError (msg : string)
| TypeError (msg : string)
| ShapeMismatch
| CrossEngineOperand
| NativeException (cls : string).

Inductive result (A : Type) : Type :=
| Ok (a : A)
| Raise (e : exn).
Arguments Ok {A} a.
Arguments Raise {A} e.

Definition rbind {A B} (r : result A) (k : A -> result B) : result B :=
  match r with
  | Ok a => k a
  | Raise e => Raise e
  end.

Definition rmap {A B} (f : A -> B) (r : result A) : result B :=
  rbind r (fun a => Ok (f a)).

(** A call into the engine, recorded by the name of the native method. *)
Inductive event : Type := Native (method : string).

(** Adapter code as a computation: the native calls it made, in order, and
    the value it returned or the exception it raised. *)
Definition Exec (A : Type) : Type := (list event * result A)%type.

Definition ret {A} (a : A) : Exec A := ([], Ok a).
Definition raise {A} (e : exn) : Exec A := ([], Raise e).
Definition lift {A} (r : result A) : Exec A := ([], r).
Definition call {A} (method : string) (r : result A) : Exec A :=
  ([Native method], r).

Definition bind {A B} (m : Exec A) (k : A -> Exec B) : Exec B :=
  match m with
  | (t, Ok a) => let '(t', r) := k a in (t ++ t', r)
  | (t, Raise e) => (t, Raise e)
  end.

Definition trace {A} (m : Exec A) : list event := fst m.
Definition outcome {A} (m : Exec A) : result A := snd m.

(** [repr] of an [int] and of a tuple of ints, as an f-string prints them. *)
Definition repr_int (z : Z) : string := NilZero.string_of_int (Z.to_int z).

Fixpoint join_comma (l : list string) : string :=
  match l with
  | [] => ""
  | [x] => x
  | x :: rest => x +:+ ", " +:+ join_comma rest
  end.

Definition repr_tuple (t : list Z) : string :=
  match t with
  | [x] => "(" +:+ repr_int x +:+ ",)"
  | _ => "(" +:+ join_comma (map repr_int t) +:+ ")"
  end.

(** [a < b] on tuples of ints: the first position where the two differ
    decides; a proper prefix is smaller. *)
Fixpoint tuple_lt (a b : list Z) : bool :=
  match a, b with
  | _, [] => false
  | [], _ :: _ => true
  | x :: a', y :: b' => if Z.eqb x y then tuple_lt a' b' else Z.ltb x y
  end.

(** [x or d] for [x : str | None]: [None] and the empty string are falsy. *)
Definition str_or (x : option string) (d : string) : string :=
  match x with
  | Some s => if String.eqb s "" then d else s
  | None => d
  end.

(** A dict literal [{k1: v1, k2: v2, ...}]: a key written twice keeps its
    first position and its last value. *)
Fixpoint dict_set {A} (k : string) (v : A) (d : list (string * A))
    : list (string * A) :=
  match d with
  | [] => [(k, v)]
  | (k', v') :: d' =>
      if String.eqb k' k then (k', v) :: d' else (k', v') :: dict_set k v d'
  end.

Definition dict_of {A} (items : list (string * A)) : list (string * A) :=
  fold_left (fun d kv => dict_set (fst kv) (snd kv) d) items [].

End Py.

Import Py.

Notation "'do' x <- m ; k" := (Py.bind m (fun x => k))
  (at level 10, x name, m at level 100, k at level 200).

Notation "'let*' x := r 'in' k" := (Py.rbind r (fun x => k))
  (at level 10, x name, r at level 100, k at level 200).

(** ** The Polars adapter: [narwhals/_polars/series.py] *)

Module Polars.

(** Modelled from the spec: [narwhals.utils.Implementation] is not under
    src/; it is the engine identifier an adapter is tagged with.  The Polars
    adapter only ever stores the member [POLARS]. *)
Inductive Implementation : Type := POLARS | PANDAS | MODIN | CUDF.

(** [PolarsSeries.__init__].  [N] is the type of the wrapped native object and
    [Version] the API-version enumeration of [narwhals.utils], which the
    adapter only stores and passes on. *)
Record PolarsSeries (N Version : Type) : Type := mkPolarsSeries {
  _native_series : N;
  _backend_version : list Z;
  _implementation : Implementation;
  _version : Version
}.
Arguments mkPolarsSeries {N Version}.
Arguments _native_series {N Version}.
Arguments _backend_version {N Version}.
Arguments _implementation {N Version}.
Arguments _version {N Version}.

Definition __init__ {N Version} (series : N) (backend_version : list Z)
    (version : Version) : PolarsSeries N Version :=
  {| _native_series := series;
     _backend_version := backend_version;
     _implementation := POLARS;
     _version := version |}.

Definition _change_version {N Version} (self : PolarsSeries N Version)
    (version : Version) : PolarsSeries N Version :=
  __init__ (_native_series self) (_backend_version self) version.

Definition _from_native_series {N Version} (self : PolarsSeries N Version)
    (series : N) : PolarsSeries N Version :=
  __init__ series (_backend_version self) (_version self).

(** Modelled from the spec: the sibling table adapter
    [narwhals._polars.dataframe.PolarsDataFrame] is not under src/; it is
    built from a native frame, the backend version and the API version. *)
Record PolarsDataFrame (N Version : Type) : Type := mkPolarsDataFrame {
  _native_frame : N;
  _df_backend_version : list Z;
  _df_version : Version
}.
Arguments mkPolarsDataFrame {N Version}.
Arguments _native_frame {N Version}.
Arguments _df_backend_version {N Version}.
Arguments _df_version {N Version}.

(** The three shapes a forwarded call can come back in. *)
Inductive forwarded (N Version : Type) : Type :=
| AsSeries (s : PolarsSeries N Version)
| AsFrame (f : PolarsDataFrame N Version)
| AsScalar (x : N).
Arguments AsSeries {N Version}.
Arguments AsFrame {N Version}.
Arguments AsScalar {N Version}.

(** What the expression [self.name] can give on the adapter: a string, or
    the forwarding closure that [__getattr__] hands out. *)
Inductive attribute (N Arg Version : Type) : Type :=
| AStr (s : string)
| AForwarder (func : list Arg -> list (string * Arg) -> Exec (forwarded N Version)).
Arguments AStr {N Arg Version} s.
Arguments AForwarder {N Arg Version} func.

(** Keyword arguments of [ewm_mean]. *)
Record ewm_kwargs : Type := mkEwm {
  com : option float;
  span : option float;
  half_life : option float;
  alpha : option float;
  adjust : bool;
  min_periods : Z;
  ignore_nulls : bool
}.

(** The three accessor namespaces of a native series. *)
Inductive namespace : Type := ns_dt | ns_str | ns_cat.

(** *** Methods that only route: the engine is an interface

    [NObj] is the universe of Python objects the engine hands back (the
    adapter is dynamically typed: whatever a native call returns can end up
    in [_native_series]); [Arg] is what a caller may pass, adapter objects
    included.

    The class gathers what the routing methods use and src/ does not define:
    the helpers of [narwhals._polars.utils] and [narwhals.dtypes], and the
    engine.  [native_getattr_call o attr args kwargs] is
    [getattr(o, attr)( *args, **kwargs)]; [native_ns_call ns o ...] is the same
    on the accessor object [o.dt], [o.str] or [o.cat]; [native_dunder m o x]
    is the operator method [m] of [o] applied to [x]; [native_name o] is the
    attribute [o.name], [None] standing for an object without such an
    attribute, on which the lookup raises [AttributeError] (the name of a
    native series is a [str] in polars, which has the empty string for an
    unset name); [native_alias o x] is [o.alias(x)], whatever [x] is. *)
Class PolarsEngine (NObj Arg Version DType NativeDType : Type) : Type := {
  isinstance_Series : NObj -> bool;
  isinstance_DataFrame : NObj -> bool;
  extract_native : Arg -> NObj;
  extract_args_kwargs :
    list Arg -> list (string * Arg) -> list NObj * list (string * NObj);
  narwhals_to_native_dtype : DType -> Version -> result NativeDType;
  native_to_narwhals_dtype : NativeDType -> Version -> list Z -> DType;
  is_numeric : DType -> bool;
  native_name : NObj -> option string;
  native_dtype : NObj -> NativeDType;
  native_getattr_call :
    NObj -> string -> list NObj -> list (string * NObj) -> result NObj;
  native_ns_call :
    namespace -> NObj -> string -> list NObj -> list (string * NObj) -> result NObj;
  native_dunder : string -> NObj -> NObj -> result NObj;
  native_alias : NObj -> attribute NObj Arg Version -> result NObj;
  native_median : NObj -> result NObj;
  native_ewm_mean : NObj -> ewm_kwargs -> result NObj;
  native_replace_strict :
    NObj -> list NObj -> list NObj -> option NativeDType -> result NObj
}.

Section Routing.

Context {NObj Arg Version DType NativeDType : Type}.
Context {E : PolarsEngine NObj Arg Version DType NativeDType}.

Local Abbreviation Series := (PolarsSeries NObj Version).

Definition _from_native_object (self : Series) (series : NObj)
    : forwarded NObj Version :=
  if isinstance_Series series then AsSeries (_from_native_series self series)
  else if isinstance_DataFrame series then
    AsFrame (mkPolarsDataFrame series (_backend_version self) (_version self))
  else AsScalar series.

(** [__getattr__] runs only for names ordinary lookup did not find.  It
    returns the closure [func]; the native attribute is looked up when the
    closure is called. *)
Definition __getattr__ (self : Series) (attr : string)
    : Exec (list Arg -> list (string * Arg) -> Exec (forwarded NObj Version)) :=
  if String.eqb attr "as_py" then raise AttributeError
  else
    ret (fun args kwargs =>
           let '(args', kwargs') := extract_args_kwargs args kwargs in
           do r <- call attr
                     (native_getattr_call (_native_series self) attr args' kwargs');
           ret (_from_native_object self r)).

(** The getter of the property: the attribute of the wrapped object as it
    is. *)
Definition name (self : Series) : result string :=
  match native_name (_native_series self) with
  | Some n => Ok n
  | None => Raise AttributeError
  end.

(** The expression [self.name].  Python runs the getter of the property;
    when the getter raises [AttributeError], it asks [__getattr__], as for a
    name that ordinary lookup did not find. *)
Definition lookup_name (self : Series) : Exec (attribute NObj Arg Version) :=
  match name self with
  | Ok n => ret (AStr n)
  | Raise AttributeError =>
      do func <- __getattr__ self "name";
      ret (AForwarder func)
  | Raise e => raise e
  end.

Definition dtype (self : Series) : DType :=
  native_to_narwhals_dtype (native_dtype (_native_series self))
    (_version self) (_backend_version self).

(** [narwhals_to_native_dtype(return_dtype, self._version) if return_dtype
    else None]: [return_dtype] is a [DType] or [None], and a [DType] object is
    truthy. *)
Definition translate_return_dtype (self : Series) (return_dtype : option DType)
    : result (option NativeDType) :=
  match return_dtype with
  | Some d => rmap Some (narwhals_to_native_dtype d (_version self))
  | None => Ok None
  end.

(** The return dtype is translated before the gate is looked at. *)
Definition replace_strict (self : Series) (old new : list NObj)
    (return_dtype : option DType) : Exec Series :=
  let ser := _native_series self in
  do dtype <- lift (translate_return_dtype self return_dtype);
  if tuple_lt (_backend_version self) [1] then
    raise (NotImplementedError
             ("`replace_strict` is only available in Polars>=1.0, found version "
              +:+ repr_tuple (_backend_version self)))
  else
    do r <- call "replace_strict" (native_replace_strict ser old new dtype);
    ret (_from_native_series self r).

(** The operator methods all have one body. *)
Definition dunder (method : string) (self : Series) (other : Arg) : Exec Series :=
  do r <- call method
            (native_dunder method (_native_series self) (extract_native other));
  ret (_from_native_series self r).

Definition __eq__ := dunder "__eq__".
Definition __ne__ := dunder "__ne__".
Definition __ge__ := dunder "__ge__".
Definition __gt__ := dunder "__gt__".
Definition __le__ := dunder "__le__".
Definition __lt__ := dunder "__lt__".
Definition __and__ := dunder "__and__".
Definition __or__ := dunder "__or__".
Definition __add__ := dunder "__add__".
Definition __radd__ := dunder "__radd__".
Definition __sub__ := dunder "__sub__".
Definition __rsub__ := dunder "__rsub__".
Definition __mul__ := dunder "__mul__".
Definition __rmul__ := dunder "__rmul__".
Definition __pow__ := dunder "__pow__".

Definition __rpow__ (self : Series) (other : Arg) : Exec Series :=
  do result <- call "__rpow__"
                 (native_dunder "__rpow__" (_native_series self) (extract_native other));
  do result <- (if tuple_lt (_backend_version self) [1; 16; 1]
                then do n <- lookup_name self;
                     call "alias" (native_alias result n)
                else ret result);
  ret (_from_native_series self result).

(** Every binary operator of the class, by name. *)
Definition binary_operators : list (string * (Series -> Arg -> Exec Series)) :=
  [ ("__eq__", __eq__); ("__ne__", __ne__); ("__ge__", __ge__);
    ("__gt__", __gt__); ("__le__", __le__); ("__lt__", __lt__);
    ("__and__", __and__); ("__or__", __or__); ("__add__", __add__);
    ("__radd__", __radd__); ("__sub__", __sub__); ("__rsub__", __rsub__);
    ("__mul__", __mul__); ("__rmul__", __rmul__); ("__pow__", __pow__);
    ("__rpow__", __rpow__) ].

Definition median (self : Series) : Exec NObj :=
  if negb (is_numeric (dtype self)) then
    raise (InvalidOperationError
             "`median` operation not supported for non-numeric input type.")
  else call "median" (native_median (_native_series self)).

Definition ewm_mean (self : Series) (kw : ewm_kwargs) : Exec Series :=
  if tuple_lt (_backend_version self) [1] then
    raise (NotImplementedError
             "`ewm_mean` not implemented for polars older than 1.0")
  else
    let expr := _native_series self in
    do r <- call "ewm_mean" (native_ewm_mean expr kw);
    ret (_from_native_series self r).

(** The namespace proxies hold a back-reference to the owning series. *)
Record PolarsSeriesDateTimeNamespace : Type := mkDt { _dt_series : Series }.
Record PolarsSeriesStringNamespace : Type := mkStr { _str_series : Series }.
Record PolarsSeriesCatNamespace : Type := mkCat { _cat_series : Series }.

Definition dt (self : Series) := mkDt self.
Definition str (self : Series) := mkStr self.
Definition cat (self : Series) := mkCat self.

Definition dt__getattr__ (self : PolarsSeriesDateTimeNamespace) (attr : string)
    : list Arg -> list (string * Arg) -> Exec Series :=
  fun args kwargs =>
    let '(args', kwargs') := extract_args_kwargs args kwargs in
    do r <- call ("dt." +:+ attr)
              (native_ns_call ns_dt (_native_series (_dt_series self)) attr args' kwargs');
    ret (_from_native_series (_dt_series self) r).

Definition str__getattr__ (self : PolarsSeriesStringNamespace) (attr : string)
    : list Arg -> list (string * Arg) -> Exec Series :=
  fun args kwargs =>
    let '(args', kwargs') := extract_args_kwargs args kwargs in
    do r <- call ("str." +:+ attr)
              (native_ns_call ns_str (_native_series (_str_series self)) attr args' kwargs');
    ret (_from_native_series (_str_series self) r).

Definition cat__getattr__ (self : PolarsSeriesCatNamespace) (attr : string)
    : list Arg -> list (string * Arg) -> Exec Series :=
  fun args kwargs =>
    let '(args', kwargs') := extract_args_kwargs args kwargs in
    do r <- call ("cat." +:+ attr)
              (native_ns_call ns_cat (_native_series (_cat_series self)) attr args' kwargs');
    ret (_from_native_series (_cat_series self) r).

(** **** The version gate *)

Lemma tuple_lt_one (v : list Z) :
  tuple_lt v [1] = true <-> v = [] \/ exists x rest, v = x :: rest /\ x < 1.
Proof.
  destruct v as [|x rest]; simpl.
  - split; [now left | reflexivity].
  - destruct (Z.eqb_spec x 1) as [->|Hne].
    + destruct rest; simpl; split; try discriminate;
        intros [H|(y & r & H & Hlt)]; try discriminate; injection H as <- _; lia.
    + rewrite Z.ltb_lt. split.
      * intros Hlt. right. now exists x, rest.
      * intros [H|(y & r & H & Hlt)]; [discriminate | injection H as <- _; exact Hlt].
Qed.

(** Where the gate [(1,)] and the threshold [(1, 0, 0)] part: on [(1,)]
    and [(1, 0)], which are proper prefixes of the threshold and so below it,
    and on tuples with a negative component.  Everywhere else, so for every
    version of three or more components, none negative, they agree. *)
Lemma gate_is_1_0_0 (v : list Z) :
  Forall (fun x => 0 <= x) v -> v <> [1] -> v <> [1; 0] ->
  tuple_lt v [1] = tuple_lt v [1; 0; 0].
Proof.
  intros Hpos H1 H10.
  destruct v as [|a rest]; [reflexivity|].
  simpl. destruct (Z.eqb_spec a 1) as [->|Ha1]; [|reflexivity].
  destruct rest as [|b rest]; [congruence|].
  inversion Hpos as [|? ? _ Hpos1]; subst.
  inversion Hpos1 as [|? ? Hb Hpos2]; subst.
  simpl. destruct (Z.eqb_spec b 0) as [->|Hb0].
  - destruct rest as [|c rest]; [congruence|].
    inversion Hpos2 as [|? ? Hc _]; subst.
    simpl. destruct (Z.eqb_spec c 0) as [->|Hc0].
    + now destruct rest.
    + symmetry. apply Z.ltb_ge. lia.
  - symmetry. apply Z.ltb_ge. lia.
Qed.

Lemma ewm_mean_below (self : Series) (kw : ewm_kwargs) :
  tuple_lt (_backend_version self) [1] = true ->
  ewm_mean self kw =
  raise (NotImplementedError "`ewm_mean` not implemented for polars older than 1.0").
Proof. intros H. unfold ewm_mean. now rewrite H. Qed.

Lemma ewm_mean_from (self : Series) (kw : ewm_kwargs) :
  tuple_lt (_backend_version self) [1] = false ->
  ewm_mean self kw =
  ([Native "ewm_mean"],
   rmap (_from_native_series self) (native_ewm_mean (_native_series self) kw)).
Proof.
  intros H. unfold ewm_mean. rewrite H. unfold call, bind, ret, rmap, rbind.
  now destruct (native_ewm_mean _ _).
Qed.

Lemma replace_strict_translation_fails (self : Series) old new return_dtype e :
  translate_return_dtype self return_dtype = Raise e ->
  replace_strict self old new return_dtype = raise e.
Proof.
  unfold replace_strict. intros ->. reflexivity.
Qed.

Lemma replace_strict_below (self : Series) old new return_dtype dt :
  translate_return_dtype self return_dtype = Ok dt ->
  tuple_lt (_backend_version self) [1] = true ->
  replace_strict self old new return_dtype =
  raise (NotImplementedError
           ("`replace_strict` is only available in Polars>=1.0, found version "
            +:+ repr_tuple (_backend_version self))).
Proof.
  unfold replace_strict. intros -> H. simpl.
  now rewrite H.
Qed.

Lemma replace_strict_from (self : Series) old new return_dtype dt :
  translate_return_dtype self return_dtype = Ok dt ->
  tuple_lt (_backend_version self) [1] = false ->
  replace_strict self old new return_dtype =
  ([Native "replace_strict"],
   rmap (_from_native_series self)
     (native_replace_strict (_native_series self) old new dt)).
Proof.
  unfold replace_strict. intros -> H. simpl.
  rewrite H. unfold call, bind, ret, rmap, rbind.
  now destruct (native_replace_strict _ _ _ _).
Qed.

(** C2 (amended).  [replace_strict] and [ewm_mean] are gated by
    [backend_version < (1,)].  For a version tuple without negative
    components other than [(1,)] and [(1, 0)], so for every version of three
    components, and for [replace_strict] once the translation of the return
    dtype (which runs before the gate) has succeeded: below [(1, 0, 0)] both
    raise the built-in [NotImplementedError] without calling the engine; at or
    above it both make the native call and hand back its outcome, wrapped, so
    the gate raises nothing. *)
Theorem version_gate (self : Series) (kw : ewm_kwargs) (old new : list NObj)
    (return_dtype : option DType) (dt : option NativeDType) :
  Forall (fun x => 0 <= x) (_backend_version self) ->
  _backend_version self <> [1] ->
  _backend_version self <> [1; 0] ->
  translate_return_dtype self return_dtype = Ok dt ->
  (tuple_lt (_backend_version self) [1; 0; 0] = true ->
     ewm_mean self kw =
       raise (NotImplementedError
                "`ewm_mean` not implemented for polars older than 1.0") /\
     replace_strict self old new return_dtype =
       raise (NotImplementedError
                ("`replace_strict` is only available in Polars>=1.0, found version "
                 +:+ repr_tuple (_backend_version self)))) /\
  (tuple_lt (_backend_version self) [1; 0; 0] = false ->
     ewm_mean self kw =
       ([Native "ewm_mean"],
        rmap (_from_native_series self)
          (native_ewm_mean (_native_series self) kw)) /\
     replace_strict self old new return_dtype =
       ([Native "replace_strict"],
        rmap (_from_native_series self)
          (native_replace_strict (_native_series self) old new dt))).
Proof.
  intros Hpos H1 H10 Htr. rewrite <- (gate_is_1_0_0 _ Hpos H1 H10).
  split; intros Hgate; split.
  - now apply ewm_mean_below.
  - now apply replace_strict_below with dt.
  - now apply ewm_mean_from.
  - now apply replace_strict_from.
Qed.

(** **** The forwarder *)

Lemma from_native_object_series (self : Series) (x : NObj) :
  isinstance_Series x = true ->
  _from_native_object self x = AsSeries (_from_native_series self x).
Proof. intros H. unfold _from_native_object. now rewrite H. Qed.

Lemma from_native_object_frame (self : Series) (x : NObj) :
  isinstance_Series x = false -> isinstance_DataFrame x = true ->
  _from_native_object self x =
  AsFrame (mkPolarsDataFrame x (_backend_version self) (_version self)).
Proof. intros H1 H2. unfold _from_native_object. now rewrite H1, H2. Qed.

Lemma from_native_object_scalar (self : Series) (x : NObj) :
  isinstance_Series x = false -> isinstance_DataFrame x = false ->
  _from_native_object self x = AsScalar x.
Proof. intros H1 H2. unfold _from_native_object. now rewrite H1, H2. Qed.

Lemma from_native_series_same_engine (self : Series) (x : NObj) :
  _implementation (_from_native_series self x) = POLARS /\
  _backend_version (_from_native_series self x) = _backend_version self /\
  _version (_from_native_series self x) = _version self /\
  _native_series (_from_native_series self x) = x.
Proof. now repeat split. Qed.

(** The classifier of the series-level forwarder: a native series comes
    back as an adapter series, a native frame as the table adapter, both with
    the backend and API version of [self]; anything else comes back as it
    is. *)
Theorem from_native_object_classifies (self : Series) (x : NObj) :
  match _from_native_object self x with
  | AsSeries s =>
      isinstance_Series x = true /\ _native_series s = x /\
      _implementation s = POLARS /\
      _backend_version s = _backend_version self /\ _version s = _version self
  | AsFrame f =>
      isinstance_Series x = false /\ isinstance_DataFrame x = true /\
      _native_frame f = x /\
      _df_backend_version f = _backend_version self /\ _df_version f = _version self
  | AsScalar y =>
      isinstance_Series x = false /\ isinstance_DataFrame x = false /\ y = x
  end.
Proof.
  unfold _from_native_object.
  destruct (isinstance_Series x) eqn:Hs; [now repeat split|].
  destruct (isinstance_DataFrame x) eqn:Hf; now repeat split.
Qed.

Lemma call_then_wrap {A B} (method : string) (r : result A) (f : A -> B) :
  (do x <- call method r; ret (f x)) = ([Native method], rmap f r).
Proof. unfold call, bind, ret, rmap, rbind. now destruct r. Qed.

(** C8.  Looking up the reserved name [as_py] on the adapter raises
    [AttributeError] and touches nothing; every other name that reaches
    [__getattr__] yields a closure which, when called, unwraps its arguments,
    calls the native attribute of that name and classifies what comes back. *)
Theorem getattr_sentinel (self : Series) (attr : string) :
  (attr = "as_py" -> __getattr__ self attr = raise AttributeError) /\
  (attr <> "as_py" ->
   exists func,
     __getattr__ self attr = ret func /\
     forall args kwargs,
       func args kwargs =
       ([Native attr],
        rmap (_from_native_object self)
          (native_getattr_call (_native_series self) attr
             (fst (extract_args_kwargs args kwargs))
             (snd (extract_args_kwargs args kwargs))))).
Proof.
  unfold __getattr__. split.
  - intros ->. reflexivity.
  - intros Hne. apply String.eqb_neq in Hne. rewrite Hne.
    eexists. split; [reflexivity|].
    intros args kwargs. cbv beta.
    destruct (extract_args_kwargs args kwargs) as [a k].
    simpl. apply call_then_wrap.
Qed.

(** **** The namespace proxies *)

(** Whatever the accessor method returns goes through
    [_from_native_series]: the proxies never look at its shape. *)
Lemma dt_getattr_wraps (self : Series) (attr : string) args kwargs :
  dt__getattr__ (dt self) attr args kwargs =
  ([Native ("dt." +:+ attr)],
   rmap (_from_native_series self)
     (native_ns_call ns_dt (_native_series self) attr
        (fst (extract_args_kwargs args kwargs))
        (snd (extract_args_kwargs args kwargs)))).
Proof.
  unfold dt__getattr__, dt. simpl.
  destruct (extract_args_kwargs args kwargs) as [a k]. apply call_then_wrap.
Qed.

Lemma str_getattr_wraps (self : Series) (attr : string) args kwargs :
  str__getattr__ (str self) attr args kwargs =
  ([Native ("str." +:+ attr)],
   rmap (_from_native_series self)
     (native_ns_call ns_str (_native_series self) attr
        (fst (extract_args_kwargs args kwargs))
        (snd (extract_args_kwargs args kwargs)))).
Proof.
  unfold str__getattr__, str. simpl.
  destruct (extract_args_kwargs args kwargs) as [a k]. apply call_then_wrap.
Qed.

Lemma cat_getattr_wraps (self : Series) (attr : string) args kwargs :
  cat__getattr__ (cat self) attr args kwargs =
  ([Native ("cat." +:+ attr)],
   rmap (_from_native_series self)
     (native_ns_call ns_cat (_native_series self) attr
        (fst (extract_args_kwargs args kwargs))
        (snd (extract_args_kwargs args kwargs)))).
Proof.
  unfold cat__getattr__, cat. simpl.
  destruct (extract_args_kwargs args kwargs) as [a k]. apply call_then_wrap.
Qed.

(** **** Reductions and operators *)

Lemma median_non_numeric (self : Series) :
  is_numeric (dtype self) = false ->
  median self =
  raise (InvalidOperationError
           "`median` operation not supported for non-numeric input type.").
Proof. intros H. unfold median. now rewrite H. Qed.

Lemma median_numeric (self : Series) :
  is_numeric (dtype self) = true ->
  median self = call "median" (native_median (_native_series self)).
Proof. intros H. unfold median. now rewrite H. Qed.

Lemma dunder_calls_engine (method : string) (self : Series) (other : Arg) :
  dunder method self other =
  ([Native method],
   rmap (_from_native_series self)
     (native_dunder method (_native_series self) (extract_native other))).
Proof. apply call_then_wrap. Qed.

Lemma dunder_trace (method : string) (self : Series) (other : Arg) :
  exists rest, trace (dunder method self other) = Native method :: rest.
Proof. rewrite dunder_calls_engine. now exists []. Qed.

(** The lookup calls nothing and always gives something. *)
Lemma lookup_name_returns (self : Series) :
  exists a, lookup_name self = ret a.
Proof.
  unfold lookup_name, name.
  destruct (native_name (_native_series self)); now eexists.
Qed.

Lemma rpow_calls_engine (self : Series) (other : Arg) :
  exists rest, trace (__rpow__ self other) = Native "__rpow__" :: rest.
Proof.
  unfold __rpow__, call, bind, trace.
  destruct (native_dunder _ _ _) as [r|e]; simpl; [|now eexists].
  destruct (tuple_lt _ _); simpl.
  - destruct (lookup_name_returns self) as [a ->]. unfold ret. simpl.
    destruct (native_alias _ _); simpl; now eexists.
  - now eexists.
Qed.

(** [__rpow__] renames the engine's result to the name of [self] on a
    backend older than 1.16.1 and leaves it alone otherwise.  The name is
    what [self.name] gives once the native [__rpow__] has returned: the name
    of the wrapped series. *)
Theorem rpow_alias_workaround (self : Series) (other : Arg) (r : NObj) :
  native_dunder "__rpow__" (_native_series self) (extract_native other) = Ok r ->
  __rpow__ self other =
  if tuple_lt (_backend_version self) [1; 16; 1]
  then match lookup_name self with
       | (_, Ok n) => ([Native "__rpow__"; Native "alias"],
                       rmap (_from_native_series self) (native_alias r n))
       | (_, Raise e) => ([Native "__rpow__"], Raise e)
       end
  else ([Native "__rpow__"], Ok (_from_native_series self r)).
Proof.
  intros Hr. unfold __rpow__. rewrite Hr. unfold call, bind, ret. simpl.
  destruct (tuple_lt _ _); [|reflexivity].
  destruct (lookup_name_returns self) as [a ->]. unfold ret. simpl.
  now destruct (native_alias _ _).
Qed.

(** No operator method of the class looks at the operand before the engine
    does: the first thing each of them does is the native call. *)
Lemma binary_operators_call_engine (self : Series) (other : Arg) :
  Forall (fun op => exists rest,
            trace (snd op self other) = Native (fst op) :: rest)
         binary_operators.
Proof.
  unfold binary_operators.
  repeat (constructor;
          [first [ exact (rpow_calls_engine self other)
                 | exact (dunder_trace _ self other) ] |]).
  constructor.
Qed.

End Routing.

(** *** The engine's series as data

    For the methods whose result depends on what the engine computes, a
    native series is its name and its cells, [None] being null.  The
    structural operations below follow the engine's documentation; sorting
    and counting stay parameters of the sections that use them. *)
Module pl.

Record Series (V : Type) : Type := mkSeries {
  name : string;
  cells : list (option V)
}.
Arguments mkSeries {V}.
Arguments name {V}.
Arguments cells {V}.

Definition len {V} (s : Series V) : nat := length (cells s).

Definition is_none {V} (c : option V) : bool :=
  match c with None => true | Some _ => false end.

(** [s.is_null()]: a Boolean series without nulls. *)
Definition is_null {V} (s : Series V) : Series bool :=
  mkSeries (name s) (map (fun c => Some (is_none c)) (cells s)).

(** [~m] on a Boolean series: a null stays null. *)
Definition invert (m : Series bool) : Series bool :=
  mkSeries (name m) (map (option_map negb) (cells m)).

Fixpoint filter_cells {V} (l : list (option V)) (m : list (option bool))
    : list (option V) :=
  match l, m with
  | x :: l', Some true :: m' => x :: filter_cells l' m'
  | _ :: l', _ :: m' => filter_cells l' m'
  | _, _ => []
  end.

(** [s.filter(mask)]: the cells whose mask is [true] (a null mask drops the
    cell); a mask of length one is broadcast; any other length mismatch is
    the engine's [ShapeError]. *)
Definition filter {V} (s : Series V) (mask : Series bool) : result (Series V) :=
  if Nat.eqb (len s) (len mask) then
    Ok (mkSeries (name s) (filter_cells (cells s) (cells mask)))
  else
    match cells mask with
    | [Some true] => Ok s
    | [_] => Ok (mkSeries (name s) [])
    | _ => Raise (NativeException "ShapeError")
    end.

(** [pl.concat(items)]: the cells in order under the first item's name;
    an empty list of items is refused. *)
Definition concat {V} (items : list (Series V)) : result (Series V) :=
  match items with
  | [] => Raise (NativeException "ValueError")
  | first :: _ => Ok (mkSeries (name first) (List.concat (map cells items)))
  end.

Fixpoint non_nulls {V} (l : list (option V)) : list V :=
  match l with
  | [] => []
  | Some v :: l' => v :: non_nulls l'
  | None :: l' => non_nulls l'
  end.

Fixpoint null_count {V} (l : list (option V)) : nat :=
  match l with
  | [] => O
  | Some _ :: l' => null_count l'
  | None :: l' => S (null_count l')
  end.

(** Every null of the list stands after every non-null cell. *)
Fixpoint nulls_at_end {V} (l : list (option V)) : bool :=
  match l with
  | [] => true
  | Some _ :: l' => nulls_at_end l'
  | None :: l' => forallb is_none l'
  end.

Lemma filter_cells_not_null {V} (l : list (option V)) :
  filter_cells l (map (option_map negb) (map (fun c => Some (is_none c)) l))
  = map Some (non_nulls l).
Proof.
  induction l as [|[v|] l IH]; simpl; [reflexivity | now rewrite IH | exact IH].
Qed.

Lemma filter_cells_null {V} (l : list (option V)) :
  filter_cells l (map (fun c => Some (is_none c)) l)
  = repeat None (null_count l).
Proof.
  induction l as [|[v|] l IH]; simpl; [reflexivity | exact IH | now rewrite IH].
Qed.

Lemma filter_not_null {V} (s : Series V) :
  filter s (invert (is_null s)) = Ok (mkSeries (name s) (map Some (non_nulls (cells s)))).
Proof.
  unfold filter, invert, is_null, len. simpl.
  rewrite !length_map, Nat.eqb_refl. now rewrite filter_cells_not_null.
Qed.

Lemma filter_null {V} (s : Series V) :
  filter s (is_null s) = Ok (mkSeries (name s) (repeat None (null_count (cells s)))).
Proof.
  unfold filter, is_null, len. simpl.
  rewrite length_map, Nat.eqb_refl. now rewrite filter_cells_null.
Qed.

Lemma forallb_is_none_repeat {V} (n : nat) :
  forallb (@is_none V) (repeat None n) = true.
Proof. induction n; simpl; auto. Qed.

Lemma nulls_at_end_partition {V} (vs : list V) (n : nat) :
  nulls_at_end (map Some vs ++ repeat None n) = true.
Proof.
  induction vs as [|v vs IH]; simpl; [|exact IH].
  destruct n; simpl; [reflexivity | apply forallb_is_none_repeat].
Qed.

Lemma non_nulls_partition {V} (vs : list V) (n : nat) :
  non_nulls (map Some vs ++ repeat None n) = vs.
Proof.
  induction vs as [|v vs IH]; simpl; [|now rewrite IH].
  induction n; simpl; auto.
Qed.

Lemma null_count_partition {V} (vs : list V) (n : nat) :
  null_count (map Some vs ++ repeat None n) = n.
Proof.
  induction vs as [|v vs IH]; simpl; [|exact IH].
  induction n; simpl; auto.
Qed.

Lemma all_null_shape {V} (l : list (option V)) :
  forallb is_none l = true ->
  non_nulls l = [] /\ l = repeat None (null_count l).
Proof.
  induction l as [|[v|] l IH]; simpl; intros H.
  - now split.
  - discriminate.
  - destruct (IH H) as [H1 H2]. split; [exact H1 | now f_equal].
Qed.

(** A list whose nulls are at the end is its non-null cells followed by its
    nulls. *)
Lemma nulls_at_end_shape {V} (l : list (option V)) :
  nulls_at_end l = true ->
  l = map Some (non_nulls l) ++ repeat None (null_count l).
Proof.
  induction l as [|[v|] l IH]; simpl; intros H.
  - reflexivity.
  - now rewrite <- IH.
  - destruct (all_null_shape l H) as [H1 H2]. rewrite H1. simpl. now f_equal.
Qed.

(** **** Frames and expressions *)

(** A cell of a frame column: a value of the counted series (or null), an
    integer, or a float. *)
Inductive cell (V : Type) : Type :=
| CVal (v : option V)
| CInt (n : Z)
| CFloat (x : float).
Arguments CVal {V} v.
Arguments CInt {V} n.
Arguments CFloat {V} x.

(** A frame: its columns in order, each under its name. *)
Definition DataFrame (V : Type) : Type := list (string * list (cell V)).

(** The expressions the adapter builds: [pl.col(n)], [pl.sum(n)], [a / b]. *)
Inductive expr : Type :=
| col (n : string)
| sum (n : string)
| truediv (a b : expr).

Definition float_of_Z (z : Z) : float := PrimFloat.of_uint63 (Uint63.of_Z z).

Fixpoint map_result {A B} (f : A -> result B) (l : list A) : result (list B) :=
  match l with
  | [] => Ok []
  | x :: l' =>
      let* y := f x in
      let* ys := map_result f l' in
      Ok (y :: ys)
  end.

Fixpoint lookup_column {V} (f : DataFrame V) (n : string) : result (list (cell V)) :=
  match f with
  | [] => Raise (NativeException "ColumnNotFoundError")
  | (k, c) :: f' => if String.eqb k n then Ok c else lookup_column f' n
  end.

Fixpoint sum_cells {V} (c : list (cell V)) : result Z :=
  match c with
  | [] => Ok 0
  | CInt n :: c' => let* t := sum_cells c' in Ok (n + t)
  | _ :: _ => Raise (NativeException "InvalidOperationError")
  end.

(** True division of two integer cells gives a float. *)
Definition div_cell {V} (a b : cell V) : result (cell V) :=
  match a, b with
  | CInt x, CInt y => Ok (CFloat (float_of_Z x / float_of_Z y))
  | CFloat x, CFloat y => Ok (CFloat (x / y))
  | _, _ => Raise (NativeException "InvalidOperationError")
  end.

Fixpoint zip_div {V} (x y : list (cell V)) : result (list (cell V)) :=
  match x, y with
  | [], [] => Ok []
  | a :: x', b :: y' =>
      let* c := div_cell a b in
      let* cs := zip_div x' y' in
      Ok (c :: cs)
  | _, _ => Raise (NativeException "ShapeError")
  end.

(** Element-wise division; a column of length one is broadcast. *)
Definition div_columns {V} (x y : list (cell V)) : result (list (cell V)) :=
  match y with
  | [d] => map_result (fun c => div_cell c d) x
  | _ =>
      match x with
      | [c] => map_result (div_cell c) y
      | _ => zip_div x y
      end
  end.

Fixpoint eval {V} (f : DataFrame V) (e : expr) : result (list (cell V)) :=
  match e with
  | col n => lookup_column f n
  | sum n =>
      let* c := lookup_column f n in
      let* t := sum_cells c in
      Ok [CInt t]
  | truediv a b =>
      let* x := eval f a in
      let* y := eval f b in
      div_columns x y
  end.

(** One output column per named expression, in order. *)
Fixpoint select_named {V} (f : DataFrame V) (named : list (string * expr))
    : result (DataFrame V) :=
  match named with
  | [] => Ok []
  | (k, e) :: rest =>
      let* c := eval f e in
      let* r := select_named f rest in
      Ok ((k, c) :: r)
  end.

(** [f.select( **named )], the keywords unpacked from a dict.  Python binds
    the keywords to the parameters of the method before the engine sees
    anything, and the first parameter of the method is called [self]: a
    keyword of that name is refused with [TypeError] (the parameter has its
    value already).  Every other keyword is a named expression. *)
Definition select {V} (f : DataFrame V) (named : list (string * expr))
    : result (DataFrame V) :=
  if existsb (fun kv => String.eqb (fst kv) "self") named
  then Raise (TypeError "select() got multiple values for argument 'self'")
  else select_named f named.

(** **** [value_counts] of the engine

    One row per distinct cell (null included) with the number of its
    occurrences.  The engine groups through a hash table, so the order of the
    rows is not fixed by the data: it differs from one run to the next.  With
    [sort] the rows are ordered by count, largest first, rows of one count in
    no fixed order.  [parallel] only selects how the engine computes.  Before
    1.0 the count column is always called [count]; from 1.0 on [name] names
    it ([count], or [proportion] with [normalize], when [name] is [None]) and
    [normalize] divides the counts by the length.  A frame cannot hold two
    columns of one name. *)
Section ValueCounts.

Context {V Run : Type}.
Variable eqb : V -> V -> bool.

(** [arrange run parallel groups]: the order in which the groups come out
    in the run [run]. *)
Variable arrange : Run -> bool -> list (option V * Z) -> list (option V * Z).

Definition cell_eqb (a b : option V) : bool :=
  match a, b with
  | Some x, Some y => eqb x y
  | None, None => true
  | _, _ => false
  end.

Fixpoint bump (x : option V) (rows : list (option V * Z)) : list (option V * Z) :=
  match rows with
  | [] => [(x, 1)]
  | (y, n) :: rest =>
      if cell_eqb x y then (y, n + 1) :: rest else (y, n) :: bump x rest
  end.

(** The distinct cells, each with the number of its occurrences (listed
    here by first occurrence). *)
Definition group_counts (l : list (option V)) : list (option V * Z) :=
  fold_left (fun rows x => bump x rows) l [].

Fixpoint insert_by_count (r : option V * Z) (rows : list (option V * Z))
    : list (option V * Z) :=
  match rows with
  | [] => [r]
  | r' :: rest =>
      if snd r' <=? snd r then r :: rows else r' :: insert_by_count r rest
  end.

Definition sort_by_count (rows : list (option V * Z)) : list (option V * Z) :=
  fold_right insert_by_count [] rows.

(** The rows of one run: the groups as that run delivers them, put in
    descending order of count when [sort] is set (rows of one count stay as
    the run delivered them). *)
Definition count_rows (run : Run) (sort parallel : bool) (l : list (option V))
    : list (option V * Z) :=
  let rows := arrange run parallel (group_counts l) in
  if sort then sort_by_count rows else rows.

Definition value_counts_legacy (run : Run) (s : Series V) (sort parallel : bool)
    : result (DataFrame V) :=
  if String.eqb (name s) "count" then Raise (NativeException "DuplicateError")
  else
    let rows := count_rows run sort parallel (cells s) in
    Ok [ (name s, map (fun r => CVal (fst r)) rows);
         ("count", map (fun r => CInt (snd r)) rows) ].

Definition value_counts (run : Run) (s : Series V) (sort parallel : bool)
    (name_ : option string) (normalize : bool) : result (DataFrame V) :=
  let value_name :=
    match name_ with
    | Some n => n
    | None => if normalize then "proportion" else "count"
    end in
  if String.eqb (name s) value_name then Raise (NativeException "DuplicateError")
  else
    let rows := count_rows run sort parallel (cells s) in
    let total := Z.of_nat (length (cells s)) in
    Ok [ (name s, map (fun r => CVal (fst r)) rows);
         (value_name,
          map (fun r => if normalize
                        then CFloat (float_of_Z (snd r) / float_of_Z total)
                        else CInt (snd r)) rows) ].

Definition total_count (rows : list (option V * Z)) : Z :=
  fold_right (fun r t => snd r + t) 0 rows.



Lemma total_count_insert (r : option V * Z) (rows : list (option V * Z)) :
  total_count (insert_by_count r rows) = snd r + total_count rows.
Proof.
  induction rows as [|r' rest IH]; simpl; [reflexivity|].
  destruct (snd r' <=? snd r); simpl; [reflexivity | rewrite IH; lia].
Qed.

Lemma total_count_sort (rows : list (option V * Z)) :
  total_count (sort_by_count rows) = total_count rows.
Proof.
  induction rows as [|r rest IH]; simpl; [reflexivity|].
  now rewrite total_count_insert, IH.
Qed.

(** The rows stand in descending order of count. *)
Fixpoint descending (rows : list (option V * Z)) : Prop :=
  match rows with
  | [] => True
  | r :: rest => Forall (fun r' => snd r' <= snd r) rest /\ descending rest
  end.






(** What the engine promises of its row order: nothing but that every
    group is there once. *)
Hypothesis arrange_permutes : forall run parallel rows,
  Permutation (arrange run parallel rows) rows.







End ValueCounts.

End pl.

(** *** [sort] *)
Section Sort.

Context {V Version : Type}.

(** The engine's [Series.sort].  Before 0.20.6 it takes [descending] only;
    from 0.20.6 on it also takes [nulls_last]. *)
Variable native_sort_legacy : bool -> pl.Series V -> pl.Series V.
Variable native_sort : bool -> bool -> pl.Series V -> pl.Series V.

Definition sort (self : PolarsSeries (pl.Series V) Version)
    (descending nulls_last : bool) : result (PolarsSeries (pl.Series V) Version) :=
  let* result :=
    (if tuple_lt (_backend_version self) [0; 20; 6] then
       let result := native_sort_legacy descending (_native_series self) in
       if nulls_last then
         let is_null := pl.is_null result in
         let* head := pl.filter result (pl.invert is_null) in
         let* tail := pl.filter result is_null in
         pl.concat [head; tail]
       else Ok result
     else Ok (native_sort descending nulls_last (_native_series self)))
  in Ok (_from_native_series self result).

(** What the engine promises.  Both versions order the non-null values the
    same way, [sort_values]; the old [sort] keeps the name and the nulls and
    says nothing here about where the nulls go; the new one, asked for
    [nulls_last], puts them after the values. *)
Variable sort_values : bool -> list V -> list V.

Hypothesis legacy_sort_name : forall d s,
  pl.name (native_sort_legacy d s) = pl.name s.
Hypothesis legacy_sort_values : forall d s,
  pl.non_nulls (pl.cells (native_sort_legacy d s))
  = sort_values d (pl.non_nulls (pl.cells s)).
Hypothesis legacy_sort_nulls : forall d s,
  pl.null_count (pl.cells (native_sort_legacy d s)) = pl.null_count (pl.cells s).
Hypothesis sort_nulls_last : forall d s,
  native_sort d true s
  = pl.mkSeries (pl.name s)
      (map Some (sort_values d (pl.non_nulls (pl.cells s)))
       ++ repeat None (pl.null_count (pl.cells s))).

(** The series both branches produce for [nulls_last=True]. *)
Definition sorted_nulls_last (descending : bool) (s : pl.Series V) : pl.Series V :=
  pl.mkSeries (pl.name s)
    (map Some (sort_values descending (pl.non_nulls (pl.cells s)))
     ++ repeat None (pl.null_count (pl.cells s))).

Lemma sort_pre_threshold (s : pl.Series V) (bv : list Z) (v : Version) (d : bool) :
  tuple_lt bv [0; 20; 6] = true ->
  sort (__init__ s bv v) d true = Ok (__init__ (sorted_nulls_last d s) bv v).
Proof.
  intros Hlt. unfold sort. simpl. rewrite Hlt.
  rewrite pl.filter_not_null, pl.filter_null. simpl.
  rewrite legacy_sort_name, legacy_sort_values, legacy_sort_nulls.
  unfold _from_native_series, sorted_nulls_last. simpl.
  now rewrite app_nil_r.
Qed.

Lemma sort_post_threshold (s : pl.Series V) (bv : list Z) (v : Version) (d : bool) :
  tuple_lt bv [0; 20; 6] = false ->
  sort (__init__ s bv v) d true = Ok (__init__ (sorted_nulls_last d s) bv v).
Proof.
  intros Hlt. unfold sort. simpl. rewrite Hlt. simpl.
  now rewrite sort_nulls_last.
Qed.

(** C1.  With [nulls_last=True] (and any [descending], [True] included) the
    branch for a backend older than 0.20.6 and the branch for a newer one
    return the same series: the sorted non-null values followed by all the
    nulls of the input, so every null stands after every value. *)
Theorem sort_nulls_last_on_both_branches (s : pl.Series V) (v : Version)
    (bv_pre bv_post : list Z) (descending : bool) :
  tuple_lt bv_pre [0; 20; 6] = true ->
  tuple_lt bv_post [0; 20; 6] = false ->
  let r := sorted_nulls_last descending s in
  sort (__init__ s bv_pre v) descending true = Ok (__init__ r bv_pre v) /\
  sort (__init__ s bv_post v) descending true = Ok (__init__ r bv_post v) /\
  pl.nulls_at_end (pl.cells r) = true /\
  pl.null_count (pl.cells r) = pl.null_count (pl.cells s) /\
  pl.non_nulls (pl.cells r) = sort_values descending (pl.non_nulls (pl.cells s)).
Proof.
  intros Hpre Hpost r. repeat split.
  - now apply sort_pre_threshold.
  - now apply sort_post_threshold.
  - apply pl.nulls_at_end_partition.
  - apply pl.null_count_partition.
  - apply pl.non_nulls_partition.
Qed.

End Sort.

(** *** [scatter]: native objects in a store

    The engine's [scatter] writes into the object it is called on, so here a
    native series is a reference into a store of native objects and the
    adapter's methods thread the store. *)
Section Scatter.

Context {Data Indices Arg NVal Version : Type}.

(** [extract_native] of [narwhals._polars.utils], not under src/. *)
Variable extract_native : Arg -> NVal.

(** What the engine's in-place [scatter] leaves in the object it is called
    on, or the exception it raises.  It may read the store: the values can be
    another native series. *)
Variable native_scatter :
  gmap positive Data -> Data -> Indices -> NVal -> result Data.

(** [s.clone()]: a new object with the contents of [s]. *)
Definition clone (s : positive) (h : gmap positive Data)
    : gmap positive Data * result positive :=
  match h !! s with
  | Some d => let s' := fresh (dom h) in (<[s' := d]> h, Ok s')
  | None => (h, Raise (NativeException "ReferenceError"))
  end.

(** [s.scatter(indices, values)] on the engine's object. *)
Definition scatter_in_place (s : positive) (indices : Indices) (values : NVal)
    (h : gmap positive Data) : gmap positive Data * result unit :=
  match h !! s with
  | Some d =>
      match native_scatter h d indices values with
      | Ok d' => (<[s := d']> h, Ok tt)
      | Raise e => (h, Raise e)
      end
  | None => (h, Raise (NativeException "ReferenceError"))
  end.

Definition scatter (self : PolarsSeries positive Version) (indices : Indices)
    (values : Arg) (h : gmap positive Data)
    : gmap positive Data * result (PolarsSeries positive Version) :=
  let values := extract_native values in
  match clone (_native_series self) h with
  | (h1, Ok s) =>
      match scatter_in_place s indices values h1 with
      | (h2, Ok _) => (h2, Ok (_from_native_series self s))
      | (h2, Raise e) => (h2, Raise e)
      end
  | (h1, Raise e) => (h1, Raise e)
  end.

Lemma fresh_not_in_store (h : gmap positive Data) :
  h !! fresh (dom h) = None.
Proof. apply not_elem_of_dom. apply is_fresh. Qed.

(** Objects that existed before the call are not touched by it. *)
Lemma scatter_frame (self : PolarsSeries positive Version) (indices : Indices)
    (values : Arg) (h : gmap positive Data) (l : positive) (d x : Data) :
  h !! _native_series self = Some d ->
  h !! l = Some x ->
  fst (scatter self indices values h) !! l = Some x.
Proof.
  intros Hself Hl. unfold scatter, clone. rewrite Hself.
  unfold scatter_in_place. rewrite lookup_insert_eq.
  assert (Hne : fresh (dom h) <> l).
  { intros <-. rewrite fresh_not_in_store in Hl. discriminate. }
  destruct (native_scatter _ _ _ _); simpl.
  - rewrite insert_insert_eq. now rewrite lookup_insert_ne.
  - now rewrite lookup_insert_ne.
Qed.

Lemma scatter_returns (self : PolarsSeries positive Version) (indices : Indices)
    (values : Arg) (h : gmap positive Data) (d d' : Data) :
  h !! _native_series self = Some d ->
  native_scatter (<[fresh (dom h) := d]> h) d indices (extract_native values) = Ok d' ->
  scatter self indices values h =
  (<[fresh (dom h) := d']> h, Ok (_from_native_series self (fresh (dom h)))).
Proof.
  intros Hself Hn. unfold scatter, clone. rewrite Hself.
  unfold scatter_in_place. rewrite lookup_insert_eq, Hn.
  now rewrite insert_insert_eq.
Qed.

Lemma scatter_raises (self : PolarsSeries positive Version) (indices : Indices)
    (values : Arg) (h : gmap positive Data) (d : Data) (e : exn) :
  h !! _native_series self = Some d ->
  native_scatter (<[fresh (dom h) := d]> h) d indices (extract_native values) = Raise e ->
  scatter self indices values h = (<[fresh (dom h) := d]> h, Raise e).
Proof.
  intros Hself Hn. unfold scatter, clone. rewrite Hself.
  unfold scatter_in_place. now rewrite lookup_insert_eq, Hn.
Qed.

(** C10.  [scatter] works on a clone.  Whatever the indices and the values,
    the object [self] wraps holds after the call what it held before, and so
    does every other object that existed; when the engine accepts the update
    the call returns a new adapter, with the backend and API version of
    [self], around a reference that did not exist before and that holds the
    updated contents; when the engine refuses it, its exception is the
    outcome. *)
Theorem scatter_leaves_self_unchanged (self : PolarsSeries positive Version)
    (indices : Indices) (values : Arg) (h : gmap positive Data) (d : Data) :
  h !! _native_series self = Some d ->
  let s' := fresh (dom h) in
  let h' := fst (scatter self indices values h) in
  h' !! _native_series self = Some d /\
  (forall l x, h !! l = Some x -> h' !! l = Some x) /\
  s' <> _native_series self /\
  h !! s' = None /\
  match native_scatter (<[s' := d]> h) d indices (extract_native values) with
  | Ok d' =>
      snd (scatter self indices values h)
      = Ok (mkPolarsSeries s' (_backend_version self) POLARS (_version self)) /\
      h' !! s' = Some d'
  | Raise e => snd (scatter self indices values h) = Raise e
  end.
Proof.
  intros Hself s' h'. subst s' h'.
  assert (Hfresh := fresh_not_in_store h).
  split; [exact (scatter_frame self indices values h _ d d Hself Hself)|].
  split; [intros l x Hl; exact (scatter_frame self indices values h l d x Hself Hl)|].
  split; [intros Heq; rewrite Heq in Hfresh; congruence|].
  split; [exact Hfresh|].
  destruct (native_scatter _ _ _ _) as [d'|e] eqn:Hn.
  - rewrite (scatter_returns self indices values h d d' Hself Hn). simpl.
    split; [reflexivity | apply lookup_insert_eq].
  - now rewrite (scatter_raises self indices values h d e Hself Hn).
Qed.

End Scatter.

(** *** [value_counts] *)
Section ValueCounts.

Context {V Version Run : Type}.
Variable eqb : V -> V -> bool.
Variable arrange : Run -> bool -> list (option V * Z) -> list (option V * Z).

(** [run] is the run of the engine in which the call is made. *)
Definition value_counts (run : Run) (self : PolarsSeries (pl.Series V) Version)
    (sort parallel : bool) (name : option string) (normalize : bool)
    : result (PolarsDataFrame (pl.DataFrame V) Version) :=
  let* result :=
    (if tuple_lt (_backend_version self) [1; 0; 0] then
       let value_name_ := str_or name (if normalize then "proportion" else "count") in
       let* result :=
         pl.value_counts_legacy eqb arrange run (_native_series self) sort parallel in
       pl.select result
         (dict_of
            [ (pl.name (_native_series self), pl.col (pl.name (_native_series self)));
              (value_name_,
               if normalize
               then pl.truediv (pl.col "count") (pl.sum "count")
               else pl.col "count") ])
     else
       pl.value_counts eqb arrange run (_native_series self) sort parallel name
         normalize)
  in Ok (mkPolarsDataFrame result (_backend_version self) (_version self)).

(** The name the count column is asked to have. *)
Definition value_name (name : option string) (normalize : bool) : string :=
  match name with
  | Some n => n
  | None => if normalize then "proportion" else "count"
  end.





Hypothesis arrange_permutes : forall run parallel rows,
  Permutation (arrange run parallel rows) rows.


(** A series called [self] cannot be counted on a backend older than 1.0:
    the name is handed to [select] as a keyword. *)
Lemma value_counts_pre_threshold_self (run : Run) (s : pl.Series V) (bv : list Z)
    (v : Version) (sort parallel : bool) (name : option string) (normalize : bool) :
  tuple_lt bv [1; 0; 0] = true ->
  pl.name s = "self" ->
  exists msg,
    value_counts run (__init__ s bv v) sort parallel name normalize
    = Raise (TypeError msg).
Proof.
  intros Hlt Hself. unfold value_counts.
  cbn [_backend_version _native_series __init__]. rewrite Hlt, Hself.
  unfold pl.value_counts_legacy. rewrite Hself.
  change (String.eqb "self" "count") with false. cbn [rbind].
  unfold dict_of. cbn [fold_left dict_set fst snd].
  destruct (String.eqb "self"
              (str_or name (if normalize then "proportion" else "count")));
    unfold pl.select; cbn [existsb fst];
    change (String.eqb "self" "self") with true; cbn [orb rbind]; now eexists.
Qed.

End ValueCounts.

(** *** A small executable engine

    An instance of the interface above over the series of [pl], used to run
    the routing methods on concrete inputs. *)
Module native.

Inductive value : Type :=
| I (z : Z)
| F (x : float)
| S (s : string)
| B (b : bool).

Inductive obj : Type :=
| OSeries (s : pl.Series value)
| OFrame (f : pl.DataFrame value)
| OScalar (c : option value).

Inductive arg : Type :=
| Wrapped (s : PolarsSeries obj unit)
| Plain (o : obj).

(** The abstract dtypes the model knows, and the engine's own. *)
Inductive dtype : Type := Int64 | Float64 | String | Boolean | Array.
Inductive native_dtype : Type := pl_Int64 | pl_Float64 | pl_Utf8 | pl_Boolean.

Definition isinstance_Series (o : obj) : bool :=
  match o with OSeries _ => true | _ => false end.

Definition isinstance_DataFrame (o : obj) : bool :=
  match o with OFrame _ => true | _ => false end.

(** Modelled from the spec: [extract_native] and [extract_args_kwargs] of
    [narwhals._polars.utils] are not under src/; they unwrap every argument
    that is an adapter object to its native counterpart. *)
Definition extract_native (a : arg) : obj :=
  match a with
  | Wrapped s => _native_series s
  | Plain o => o
  end.

Definition extract_args_kwargs (args : list arg) (kwargs : list (string * arg))
    : list obj * list (string * obj) :=
  (map extract_native args,
   map (fun kv => (fst kv, extract_native (snd kv))) kwargs).

(** Modelled from the spec: [narwhals_to_native_dtype] is not under src/; it
    fails when the logical type has no native representation, here [Array]. *)
Definition narwhals_to_native_dtype (d : dtype) (v : unit) : result native_dtype :=
  match d with
  | Int64 => Ok pl_Int64
  | Float64 => Ok pl_Float64
  | String => Ok pl_Utf8
  | Boolean => Ok pl_Boolean
  | Array => Raise (TypeError "no native representation")
  end.

Definition native_to_narwhals_dtype (d : native_dtype) (v : unit)
    (backend_version : list Z) : dtype :=
  match d with
  | pl_Int64 => Int64
  | pl_Float64 => Float64
  | pl_Utf8 => String
  | pl_Boolean => Boolean
  end.

Definition is_numeric (d : dtype) : bool :=
  match d with
  | Int64 | Float64 => true
  | _ => false
  end.

(** Only a series has a name. *)
Definition name_of (o : obj) : option string :=
  match o with
  | OSeries s => Some (pl.name s)
  | _ => None
  end.

Fixpoint dtype_of_cells (l : list (option value)) : native_dtype :=
  match l with
  | [] => pl_Int64
  | Some (I _) :: _ => pl_Int64
  | Some (F _) :: _ => pl_Float64
  | Some (S _) :: _ => pl_Utf8
  | Some (B _) :: _ => pl_Boolean
  | None :: l' => dtype_of_cells l'
  end.

Definition dtype_of (o : obj) : native_dtype :=
  match o with
  | OSeries s => dtype_of_cells (pl.cells s)
  | _ => pl_Int64
  end.

Definition refuse {A} : result A := Raise (NativeException "InvalidOperationError").

(** One operator on two non-null cells. *)
Definition value_op (method : string) (a b : value) : result value :=
  match a, b with
  | I x, I y =>
      if String.eqb method "__eq__" then Ok (B (Z.eqb x y))
      else if String.eqb method "__ne__" then Ok (B (negb (Z.eqb x y)))
      else if String.eqb method "__ge__" then Ok (B (Z.leb y x))
      else if String.eqb method "__gt__" then Ok (B (Z.ltb y x))
      else if String.eqb method "__le__" then Ok (B (Z.leb x y))
      else if String.eqb method "__lt__" then Ok (B (Z.ltb x y))
      else if String.eqb method "__add__" then Ok (I (x + y))
      else if String.eqb method "__radd__" then Ok (I (y + x))
      else if String.eqb method "__sub__" then Ok (I (x - y))
      else if String.eqb method "__rsub__" then Ok (I (y - x))
      else if String.eqb method "__mul__" then Ok (I (x * y))
      else if String.eqb method "__rmul__" then Ok (I (y * x))
      else if String.eqb method "__pow__" then Ok (I (x ^ y))
      else if String.eqb method "__rpow__" then Ok (I (y ^ x))
      else refuse
  | B x, B y =>
      if String.eqb method "__and__" then Ok (B (andb x y))
      else if String.eqb method "__or__" then Ok (B (orb x y))
      else if String.eqb method "__eq__" then Ok (B (Bool.eqb x y))
      else if String.eqb method "__ne__" then Ok (B (negb (Bool.eqb x y)))
      else refuse
  | S x, S y =>
      if String.eqb method "__eq__" then Ok (B (String.eqb x y))
      else if String.eqb method "__ne__" then Ok (B (negb (String.eqb x y)))
      else if String.eqb method "__add__" then Ok (S (x +:+ y))
      else if String.eqb method "__radd__" then Ok (S (y +:+ x))
      else refuse
  | _, _ => refuse
  end.

(** A null on either side gives a null. *)
Definition cell_op (method : string) (a b : option value) : result (option value) :=
  match a, b with
  | Some x, Some y => rmap Some (value_op method x y)
  | _, _ => Ok None
  end.

Fixpoint zip_op (method : string) (x y : list (option value))
    : result (list (option value)) :=
  match x, y with
  | [], [] => Ok []
  | a :: x', b :: y' =>
      let* c := cell_op method a b in
      let* cs := zip_op method x' y' in
      Ok (c :: cs)
  | _, _ => Raise (NativeException "ShapeError")
  end.

(** The operator methods: a scalar or a series of length one is broadcast;
    two series of different lengths are the engine's [ShapeError]. *)
Definition dunder (method : string) (self other : obj) : result obj :=
  match self, other with
  | OSeries s, OScalar c =>
      let* r := pl.map_result (fun a => cell_op method a c) (pl.cells s) in
      Ok (OSeries (pl.mkSeries (pl.name s) r))
  | OSeries s, OSeries o =>
      match pl.cells o with
      | [c] =>
          let* r := pl.map_result (fun a => cell_op method a c) (pl.cells s) in
          Ok (OSeries (pl.mkSeries (pl.name s) r))
      | _ =>
          let* r := zip_op method (pl.cells s) (pl.cells o) in
          Ok (OSeries (pl.mkSeries (pl.name s) r))
      end
  | _, _ => Raise (TypeError "unsupported operand")
  end.

(** [o.alias(x)]: only a series has the method, and it takes a string. *)
Definition alias (o : obj) (x : attribute obj arg unit) : result obj :=
  match o, x with
  | OSeries s, AStr n => Ok (OSeries (pl.mkSeries n (pl.cells s)))
  | OSeries _, AForwarder _ => Raise (NativeException "TypeError")
  | _, _ => Raise AttributeError
  end.

Fixpoint insert_Z (x : Z) (l : list Z) : list Z :=
  match l with
  | [] => [x]
  | y :: l' => if Z.leb x y then x :: l else y :: insert_Z x l'
  end.

Definition sort_Z (l : list Z) : list Z := fold_right insert_Z [] l.

Fixpoint ints (l : list (option value)) : result (list Z) :=
  match l with
  | [] => Ok []
  | Some (I z) :: l' => let* r := ints l' in Ok (z :: r)
  | None :: l' => ints l'
  | _ :: _ => refuse
  end.

(** [s.median()] on integers: a float, or null for no value. *)
Definition median (o : obj) : result obj :=
  match o with
  | OSeries s =>
      let* zs := ints (pl.cells s) in
      let sorted := sort_Z zs in
      let n := length sorted in
      let mid i := pl.float_of_Z (nth i sorted 0) in
      if Nat.eqb n 0 then Ok (OScalar None)
      else if Nat.even n
      then Ok (OScalar (Some (F ((mid (Nat.div2 n - 1)%nat + mid (Nat.div2 n)) / 2))))
      else Ok (OScalar (Some (F (mid (Nat.div2 n)))))
  | _ => Raise AttributeError
  end.

Fixpoint ewm (a : float) (prev : option float) (l : list (option value))
    : result (list (option value)) :=
  match l with
  | [] => Ok []
  | None :: l' => let* r := ewm a prev l' in Ok (None :: r)
  | Some (I z) :: l' =>
      let x := pl.float_of_Z z in
      let y := match prev with
               | None => x
               | Some p => ((1 - a) * p + a * x)%float
               end in
      let* r := ewm a (Some y) l' in
      Ok (Some (F y) :: r)
  | Some (F x) :: l' =>
      let y := match prev with
               | None => x
               | Some p => ((1 - a) * p + a * x)%float
               end in
      let* r := ewm a (Some y) l' in
      Ok (Some (F y) :: r)
  | _ :: _ => refuse
  end.

(** [s.ewm_mean(alpha=a, adjust=False)]; the model knows no other
    parametrisation. *)
Definition ewm_mean (o : obj) (kw : ewm_kwargs) : result obj :=
  match o, alpha kw, adjust kw with
  | OSeries s, Some a, false =>
      let* r := ewm a None (pl.cells s) in
      Ok (OSeries (pl.mkSeries (pl.name s) r))
  | OSeries _, _, _ => Raise (NativeException "ComputeError")
  | _, _, _ => Raise AttributeError
  end.

Definition value_eqb (a b : value) : bool :=
  match a, b with
  | I x, I y => Z.eqb x y
  | F x, F y => PrimFloat.eqb x y
  | S x, S y => String.eqb x y
  | B x, B y => Bool.eqb x y
  | _, _ => false
  end.

Fixpoint replacement (old new : list obj) (v : value) : result (option value) :=
  match old, new with
  | OScalar (Some k) :: old', OScalar r :: new' =>
      if value_eqb k v then Ok r else replacement old' new' v
  | _, _ => refuse
  end.

(** [s.replace_strict(old, new)]: every non-null value must be one of
    [old]. *)
Definition replace_strict (o : obj) (old new : list obj)
    (return_dtype : option native_dtype) : result obj :=
  match o with
  | OSeries s =>
      let* r := pl.map_result
                  (fun c => match c with
                            | Some v => replacement old new v
                            | None => Ok None
                            end) (pl.cells s) in
      Ok (OSeries (pl.mkSeries (pl.name s) r))
  | _ => Raise AttributeError
  end.

(** A few of the engine's other methods, for the forwarder. *)
Definition getattr_call (o : obj) (attr : string) (args : list obj)
    (kwargs : list (string * obj)) : result obj :=
  match o with
  | OSeries s =>
      if String.eqb attr "len" then
        Ok (OScalar (Some (I (Z.of_nat (pl.len s)))))
      else if String.eqb attr "null_count" then
        Ok (OScalar (Some (I (Z.of_nat (pl.null_count (pl.cells s))))))
      else if String.eqb attr "drop_nulls" then
        Ok (OSeries (pl.mkSeries (pl.name s) (map Some (pl.non_nulls (pl.cells s)))))
      else if String.eqb attr "to_frame" then
        Ok (OFrame [(pl.name s, map pl.CVal (pl.cells s))])
      else Raise AttributeError
  | _ => Raise AttributeError
  end.

Fixpoint max_Z (l : list Z) : option Z :=
  match l with
  | [] => None
  | x :: l' => match max_Z l' with
               | Some m => Some (Z.max x m)
               | None => Some x
               end
  end.

(** Accessor methods: [str.len_chars] gives a series; [dt.max] (on
    timestamps held as integers) and [cat.is_local] give plain scalars. *)
Definition ns_call (ns : namespace) (o : obj) (attr : string) (args : list obj)
    (kwargs : list (string * obj)) : result obj :=
  match ns, o with
  | ns_str, OSeries s =>
      if String.eqb attr "len_chars" then
        let* r := pl.map_result
                    (fun c => match c with
                              | Some (S t) => Ok (Some (I (Z.of_nat (String.length t))))
                              | None => Ok None
                              | _ => refuse
                              end) (pl.cells s) in
        Ok (OSeries (pl.mkSeries (pl.name s) r))
      else Raise AttributeError
  | ns_dt, OSeries s =>
      if String.eqb attr "max" then
        let* zs := ints (pl.cells s) in
        Ok (OScalar (option_map I (max_Z zs)))
      else Raise AttributeError
  | ns_cat, OSeries s =>
      if String.eqb attr "is_local" then Ok (OScalar (Some (B true)))
      else Raise AttributeError
  | _, _ => Raise AttributeError
  end.

#[export] Instance engine : PolarsEngine obj arg unit dtype native_dtype := {
  Polars.isinstance_Series := isinstance_Series;
  Polars.isinstance_DataFrame := isinstance_DataFrame;
  Polars.extract_native := extract_native;
  Polars.extract_args_kwargs := extract_args_kwargs;
  Polars.narwhals_to_native_dtype := narwhals_to_native_dtype;
  Polars.native_to_narwhals_dtype := native_to_narwhals_dtype;
  Polars.is_numeric := is_numeric;
  native_name := name_of;
  native_dtype := dtype_of;
  native_getattr_call := getattr_call;
  native_ns_call := ns_call;
  native_dunder := dunder;
  native_alias := alias;
  native_median := median;
  native_ewm_mean := ewm_mean;
  native_replace_strict := replace_strict
}.

(** [pl.Series(name, cells)] handed to the adapter. *)
Definition wrap (n : string) (l : list (option value)) (backend_version : list Z)
    : PolarsSeries obj unit :=
  __init__ (OSeries (pl.mkSeries n l)) backend_version tt.

(** **** Sorting integers, in both versions of the engine's [sort] *)

Definition sort_values (descending : bool) (l : list Z) : list Z :=
  if descending then rev (sort_Z l) else sort_Z l.

(** Before 0.20.6: the nulls come first. *)
Definition sort_legacy (descending : bool) (s : pl.Series Z) : pl.Series Z :=
  pl.mkSeries (pl.name s)
    (repeat None (pl.null_count (pl.cells s))
     ++ map Some (sort_values descending (pl.non_nulls (pl.cells s)))).

Definition sort (descending nulls_last : bool) (s : pl.Series Z) : pl.Series Z :=
  let values := map Some (sort_values descending (pl.non_nulls (pl.cells s))) in
  let nulls := repeat None (pl.null_count (pl.cells s)) in
  pl.mkSeries (pl.name s) (if nulls_last then values ++ nulls else nulls ++ values).

Lemma non_nulls_nulls_first {V} (n : nat) (vs : list V) :
  pl.non_nulls (repeat None n ++ map Some vs) = vs.
Proof.
  induction n as [|n IH]; simpl; [|exact IH].
  induction vs as [|v vs IH]; simpl; [reflexivity | now rewrite IH].
Qed.

Lemma null_count_nulls_first {V} (n : nat) (vs : list V) :
  pl.null_count (repeat None n ++ map Some vs) = n.
Proof.
  induction n as [|n IH]; simpl; [|now rewrite IH].
  induction vs as [|v vs IH]; simpl; [reflexivity | exact IH].
Qed.

(** **** [scatter] on lists *)

(** The values handed to [scatter]: one scalar, a sequence, or a native
    series. *)
Inductive scatter_values : Type :=
| One (c : option Z)
| Many (l : list (option Z))
| Ref (r : positive).

Inductive scatter_arg : Type :=
| SWrapped (s : PolarsSeries positive unit)
| SPlain (v : scatter_values).

Definition scatter_extract_native (a : scatter_arg) : scatter_values :=
  match a with
  | SWrapped s => Ref (_native_series s)
  | SPlain v => v
  end.

Fixpoint write (d : list (option Z)) (indices : list nat) (values : list (option Z))
    : result (list (option Z)) :=
  match indices, values with
  | [], [] => Ok d
  | i :: indices', v :: values' =>
      if Nat.ltb i (length d) then write (<[i := v]> d) indices' values'
      else Raise (NativeException "OutOfBoundsError")
  | _, _ => Raise (NativeException "ShapeError")
  end.

(** The engine's [scatter]: every index must be in range; a single value is
    written at every index. *)
Definition scatter_data (h : gmap positive (list (option Z))) (d : list (option Z))
    (indices : list nat) (values : scatter_values) : result (list (option Z)) :=
  match values with
  | One c => write d indices (repeat c (length indices))
  | Many l => write d indices l
  | Ref r =>
      match h !! r with
      | Some l => write d indices l
      | None => Raise (NativeException "ReferenceError")
      end
  end.

End native.

End Polars.

(** ** The pandas-like adapter: [narwhals/_pandas_like/series.py] *)

Module Pandas.

(** A native series name: [None] or a hashable label.  [str] of a string
    label is the label, of an integer label its decimal form. *)
Inductive label : Type := LStr (s : string) | LInt (z : Z).

Definition py_str (l : label) : string :=
  match l with
  | LStr s => s
  | LInt z => repr_int z
  end.

(** What the adapter uses and src/ does not define:
    [validate_column_comparand] of [narwhals._pandas_like.utils];
    [pd_version], the parsed [pd.__version__]; and the engine.  [PObj] is the
    universe of native objects, [Arg] what a caller may pass as an operand.
    [pd_rename s name copy] is [s.rename(name)] when [copy] is [None] and
    [s.rename(name, copy=c)] when it is [Some c]. *)
Class PandasEngine (PObj Arg Index PDtype : Type) : Type := {
  validate_column_comparand : Index -> Arg -> result PObj;
  pd_version : list Z;
  is_extension_array_dtype : PDtype -> bool;
  pd_name : PObj -> option label;
  pd_index : PObj -> Index;
  pd_dtype : PObj -> PDtype;
  pd_dunder : string -> PObj -> PObj -> result PObj;
  pd_rename : PObj -> option label -> option bool -> result PObj;
  pd_median : PObj -> result PObj;
  pd_isna : PObj -> result PObj;
  pd_fillna : PObj -> bool -> result PObj;
  pd_sort_values : PObj -> bool -> result PObj
}.

Record PandasSeries (PObj : Type) : Type := mkPandasSeries {
  _name : string;
  _series : PObj;
  _implementation : string;
  _use_copy_false : bool
}.
Arguments mkPandasSeries {PObj}.
Arguments _name {PObj}.
Arguments _series {PObj}.
Arguments _implementation {PObj}.
Arguments _use_copy_false {PObj}.

Section Routing.

Context {PObj Arg Index PDtype : Type}.
Context {E : PandasEngine PObj Arg Index PDtype}.

Local Abbreviation Series := (PandasSeries PObj).

Definition __init__ (series : PObj) (implementation : string) : Series :=
  {| _name := match pd_name series with
              | Some n => py_str n
              | None => ""
              end;
     _series := series;
     _implementation := implementation;
     _use_copy_false :=
       if String.eqb implementation "pandas"
       then tuple_lt pd_version [3; 0; 0]
       else false |}.

Definition _rename (self : Series) (series : PObj) (name : option label)
    : Exec PObj :=
  if _use_copy_false self
  then call "rename" (pd_rename series name (Some false))
  else call "rename" (pd_rename series name None).

Definition _from_series (self : Series) (series : PObj) : Series :=
  __init__ series (_implementation self).

Definition name (self : Series) : string := _name self.

(** The operator methods all have one body: validate the operand against
    the index of [self], call the native operator, restore the name. *)
Definition dunder (method : string) (self : Series) (other : Arg) : Exec Series :=
  let ser := _series self in
  do other <- lift (validate_column_comparand (pd_index (_series self)) other);
  do r <- call method (pd_dunder method ser other);
  do r <- _rename self r (pd_name ser);
  ret (_from_series self r).

Definition __eq__ := dunder "__eq__".
Definition __ne__ := dunder "__ne__".
Definition __ge__ := dunder "__ge__".
Definition __gt__ := dunder "__gt__".
Definition __le__ := dunder "__le__".
Definition __lt__ := dunder "__lt__".
Definition __and__ := dunder "__and__".
Definition __rand__ := dunder "__rand__".
Definition __or__ := dunder "__or__".
Definition __ror__ := dunder "__ror__".
Definition __add__ := dunder "__add__".
Definition __radd__ := dunder "__radd__".
Definition __sub__ := dunder "__sub__".
Definition __rsub__ := dunder "__rsub__".
Definition __mul__ := dunder "__mul__".
Definition __rmul__ := dunder "__rmul__".
Definition __truediv__ := dunder "__truediv__".
Definition __rtruediv__ := dunder "__rtruediv__".
Definition __floordiv__ := dunder "__floordiv__".
Definition __rfloordiv__ := dunder "__rfloordiv__".
Definition __pow__ := dunder "__pow__".
Definition __rpow__ := dunder "__rpow__".
Definition __mod__ := dunder "__mod__".
Definition __rmod__ := dunder "__rmod__".

Definition binary_operators : list (string * (Series -> Arg -> Exec Series)) :=
  [ ("__eq__", __eq__); ("__ne__", __ne__); ("__ge__", __ge__);
    ("__gt__", __gt__); ("__le__", __le__); ("__lt__", __lt__);
    ("__and__", __and__); ("__rand__", __rand__); ("__or__", __or__);
    ("__ror__", __ror__); ("__add__", __add__); ("__radd__", __radd__);
    ("__sub__", __sub__); ("__rsub__", __rsub__); ("__mul__", __mul__);
    ("__rmul__", __rmul__); ("__truediv__", __truediv__);
    ("__rtruediv__", __rtruediv__); ("__floordiv__", __floordiv__);
    ("__rfloordiv__", __rfloordiv__); ("__pow__", __pow__);
    ("__rpow__", __rpow__); ("__mod__", __mod__); ("__rmod__", __rmod__) ].

Definition median (self : Series) : Exec PObj :=
  let ser := _series self in
  call "median" (pd_median ser).

(** [(ser != ser).fillna(False)] on an extension dtype, [ser.isna()]
    otherwise. *)
Definition is_nan (self : Series) : Exec Series :=
  let ser := _series self in
  if is_extension_array_dtype (pd_dtype ser) then
    do ne <- call "__ne__" (pd_dunder "__ne__" ser ser);
    do filled <- call "fillna" (pd_fillna ne false);
    ret (_from_series self filled)
  else
    do r <- call "isna" (pd_isna ser);
    ret (_from_series self r).

(** [sort] has no [nulls_last] parameter: nulls go where [sort_values]
    puts them. *)
Definition sort (self : Series) (descending : bool) : Exec Series :=
  let ser := _series self in
  do sorted <- call "sort_values" (pd_sort_values ser (negb descending));
  do r <- call "rename" (pd_rename sorted (Some (LStr (name self))) None);
  ret (_from_series self r).

Lemma name_of_init (series : PObj) (implementation : string) :
  name (__init__ series implementation) =
  match pd_name series with
  | Some n => py_str n
  | None => ""
  end.
Proof. reflexivity. Qed.

Lemma median_forwards (self : Series) :
  median self = ([Native "median"], pd_median (_series self)).
Proof. reflexivity. Qed.

Lemma dunder_rejected (method : string) (self : Series) (other : Arg) (e : exn) :
  validate_column_comparand (pd_index (_series self)) other = Raise e ->
  dunder method self other = raise e.
Proof. intros H. unfold dunder. now rewrite H. Qed.

Lemma dunder_accepted (method : string) (self : Series) (other : Arg) (o : PObj) :
  validate_column_comparand (pd_index (_series self)) other = Ok o ->
  exists rest, trace (dunder method self other) = Native method :: rest.
Proof.
  intros H. unfold dunder, lift, bind, call, trace. rewrite H. simpl.
  destruct (pd_dunder _ _ _); simpl; [|now eexists].
  destruct (_rename _ _ _) as [t [r|e]]; simpl; now eexists.
Qed.

(** Every operator method validates the operand before the engine sees
    it: when the validator raises, that exception is the outcome and no native
    call was made. *)
Lemma binary_operators_validate_first (self : Series) (other : Arg) (e : exn) :
  validate_column_comparand (pd_index (_series self)) other = Raise e ->
  Forall (fun op => snd op self other = raise e) binary_operators.
Proof.
  intros H. unfold binary_operators.
  repeat (constructor; [exact (dunder_rejected _ self other e H)|]).
  constructor.
Qed.

End Routing.

(** *** The engine's series as data

    A small executable pandas: a series is its name, its dtype and its
    cells.  Under a NumPy dtype a missing float is [NaN] and a missing object
    is [None], written [NA] here.  The extension dtypes are of two kinds: the
    masked ones ([Float64], [Int64], [boolean], [string]), which keep a mask
    of missing cells and whose comparisons answer [NA] on them, and the
    others, here [category] and the timezone-aware [datetime64], whose
    missing cell ([NaN], [NaT]) is written [NA] as well and whose comparisons
    answer a plain Boolean on it. *)
Module pd.

Inductive cell : Type :=
| NA
| Float (x : float)
| Int (z : Z)
| Bool (b : bool)
| Str (s : string).

Inductive dtype : Type :=
| float64 | int64 | bool_ | object_
| Float64 | Int64 | boolean | string_
| category | datetime64_tz.

Definition is_extension_array_dtype (d : dtype) : bool :=
  match d with
  | Float64 | Int64 | boolean | string_ | category | datetime64_tz => true
  | float64 | int64 | bool_ | object_ => false
  end.

(** The masked dtypes: a comparison with a missing cell is [NA]. *)
Definition is_masked_dtype (d : dtype) : bool :=
  match d with
  | Float64 | Int64 | boolean | string_ => true
  | _ => false
  end.

Definition is_float_dtype (d : dtype) : bool :=
  match d with
  | float64 | Float64 => true
  | _ => false
  end.

Record Series : Type := mkSeries {
  name : option label;
  dtype_ : dtype;
  cells : list cell
}.

Inductive obj : Type :=
| OSeries (s : Series)
| OScalar (c : cell).

(** An operand as a caller passes it. *)
Inductive operand : Type :=
| Scalar (c : cell)
| SameEngine (s : PandasSeries obj)
| Foreign.

Definition cell_is_nan (c : cell) : bool :=
  match c with
  | Float x => PrimFloat.is_nan x
  | _ => false
  end.

(** [a != b] on two cells of a column of dtype [d].  When either is
    missing the answer is [NA] under a masked dtype and [True] under any
    other: a missing cell is unequal to everything, itself included. *)
Definition cell_ne (d : dtype) (a b : cell) : cell :=
  match a, b with
  | NA, _ | _, NA => if is_masked_dtype d then NA else Bool true
  | Float x, Float y => Bool (negb (PrimFloat.eqb x y))
  | Int x, Int y => Bool (negb (Z.eqb x y))
  | Bool x, Bool y => Bool (negb (Bool.eqb x y))
  | Str x, Str y => Bool (negb (String.eqb x y))
  | _, _ => Bool true
  end.

Definition cell_eq (d : dtype) (a b : cell) : cell :=
  match cell_ne d a b with
  | Bool r => Bool (negb r)
  | c => c
  end.

Definition cell_add (a b : cell) : result cell :=
  match a, b with
  | NA, _ | _, NA => Ok NA
  | Int x, Int y => Ok (Int (x + y))
  | Float x, Float y => Ok (Float (x + y))
  | Str x, Str y => Ok (Str (x +:+ y))
  | _, _ => Raise (NativeException "TypeError")
  end.

Fixpoint zip_cells (f : cell -> cell -> result cell) (x y : list cell)
    : result (list cell) :=
  match x, y with
  | [], [] => Ok []
  | a :: x', b :: y' =>
      let* c := f a b in
      let* cs := zip_cells f x' y' in
      Ok (c :: cs)
  | _, _ => Raise (NativeException "ValueError")
  end.

Fixpoint map_cells (f : cell -> result cell) (x : list cell) : result (list cell) :=
  match x with
  | [] => Ok []
  | a :: x' =>
      let* c := f a in
      let* cs := map_cells f x' in
      Ok (c :: cs)
  end.

(** A comparison gives the masked [boolean] on a masked dtype and NumPy's
    [bool] on every other. *)
Definition comparison_dtype (d : dtype) : dtype :=
  if is_masked_dtype d then boolean else bool_.

Definition cellwise (method : string) (d : dtype)
    : option ((cell -> cell -> result cell) * dtype) :=
  if String.eqb method "__ne__" then
    Some (fun a b => Ok (cell_ne d a b), comparison_dtype d)
  else if String.eqb method "__eq__" then
    Some (fun a b => Ok (cell_eq d a b), comparison_dtype d)
  else if String.eqb method "__add__" then
    Some (cell_add, d)
  else if String.eqb method "__radd__" then
    Some (fun a b => cell_add b a, d)
  else None.

(** The operator methods this model knows, cell by cell; two series must
    have one length, a scalar is applied to every cell. *)
Definition dunder (method : string) (self other : obj) : result obj :=
  match self with
  | OSeries s =>
      match cellwise method (dtype_ s) with
      | Some (f, dt) =>
          match other with
          | OSeries o =>
              let* c := zip_cells f (cells s) (cells o) in
              Ok (OSeries (mkSeries (name s) dt c))
          | OScalar x =>
              let* c := map_cells (fun a => f a x) (cells s) in
              Ok (OSeries (mkSeries (name s) dt c))
          end
      | None => Raise (NativeException "TypeError")
      end
  | OScalar _ => Raise (NativeException "TypeError")
  end.

(** A missing cell: [NA], and under a NumPy dtype [NaN] as well. *)
Definition cell_missing (d : dtype) (c : cell) : bool :=
  match c with
  | NA => true
  | Float x => if is_extension_array_dtype d then false else PrimFloat.is_nan x
  | _ => false
  end.

Definition isna (o : obj) : result obj :=
  match o with
  | OSeries s =>
      Ok (OSeries (mkSeries (name s) bool_
                     (map (fun c => Bool (cell_missing (dtype_ s) c)) (cells s))))
  | OScalar _ => Raise AttributeError
  end.

Definition fillna (o : obj) (value : bool) : result obj :=
  match o with
  | OSeries s =>
      Ok (OSeries (mkSeries (name s) (dtype_ s)
                     (map (fun c => if cell_missing (dtype_ s) c then Bool value else c)
                          (cells s))))
  | OScalar _ => Raise AttributeError
  end.

Definition rename (o : obj) (n : option label) (copy : option bool) : result obj :=
  match o with
  | OSeries s => Ok (OSeries (mkSeries n (dtype_ s) (cells s)))
  | OScalar _ => Raise AttributeError
  end.

(** Order on the cells of one column. *)
Definition cell_leb (a b : cell) : bool :=
  match a, b with
  | Int x, Int y => Z.leb x y
  | Float x, Float y => PrimFloat.leb x y
  | Bool x, Bool y => implb x y
  | Str x, Str y => String.leb x y
  | _, _ => true
  end.

Fixpoint insert_sorted (leb : cell -> cell -> bool) (c : cell) (l : list cell)
    : list cell :=
  match l with
  | [] => [c]
  | c' :: l' => if leb c c' then c :: l else c' :: insert_sorted leb c l'
  end.

Definition sort_cells (leb : cell -> cell -> bool) (l : list cell) : list cell :=
  fold_right (insert_sorted leb) [] l.

(** [s.sort_values(ascending=a)]: missing cells last, the default
    [na_position]. *)
Definition sort_values (o : obj) (ascending : bool) : result obj :=
  match o with
  | OSeries s =>
      let present := List.filter (fun c => negb (cell_missing (dtype_ s) c)) (cells s) in
      let missing := List.filter (cell_missing (dtype_ s)) (cells s) in
      let leb := if ascending then cell_leb else fun a b => cell_leb b a in
      Ok (OSeries (mkSeries (name s) (dtype_ s) (sort_cells leb present ++ missing)))
  | OScalar _ => Raise AttributeError
  end.

Definition cell_to_float (c : cell) : option float :=
  match c with
  | Int z => Some (PrimFloat.of_uint63 (Uint63.of_Z z))
  | Float x => Some x
  | Bool b => Some (if b then 1%float else 0%float)
  | _ => None
  end.

(** [s.median()] of a numeric or Boolean column: the middle of the sorted
    present cells as a float, the mean of the two middle ones for an even
    count, [NaN] for none.  Strings and categories are refused with
    [TypeError]; so is a column of timestamps here, whose median is not a
    number. *)
Definition median (o : obj) : result obj :=
  match o with
  | OSeries s =>
      match dtype_ s with
      | object_ | string_ | category | datetime64_tz =>
          Raise (NativeException "TypeError")
      | _ =>
          let present :=
            sort_cells cell_leb
              (List.filter (fun c => negb (cell_missing (dtype_ s) c)) (cells s)) in
          let n := length present in
          let mid i := match nth_error present i with
                       | Some c => default nan (cell_to_float c)
                       | None => nan
                       end in
          if Nat.eqb n 0 then Ok (OScalar (Float nan))
          else if Nat.even n
          then Ok (OScalar (Float ((mid (Nat.div2 n - 1)%nat + mid (Nat.div2 n)) / 2)))
          else Ok (OScalar (Float (mid (Nat.div2 n))))
      end
  | OScalar _ => Raise AttributeError
  end.

Definition index (o : obj) : nat :=
  match o with
  | OSeries s => length (cells s)
  | OScalar _ => O
  end.

Definition dtype_of (o : obj) : dtype :=
  match o with
  | OSeries s => dtype_ s
  | OScalar _ => object_
  end.

Definition name_of (o : obj) : option label :=
  match o with
  | OSeries s => name s
  | OScalar _ => None
  end.

(** Modelled from the spec: [validate_column_comparand] of
    [narwhals._pandas_like.utils] is not under src/.  A scalar passes
    through; a series of another engine is a [CrossEngineOperand]; a series
    of this engine passes through as its native object when its length is
    that of the index, is broadcast when its length is one, and is a
    [ShapeMismatch] otherwise. *)
Definition validate_column_comparand (index : nat) (other : operand) : result obj :=
  match other with
  | Scalar c => Ok (OScalar c)
  | Foreign => Raise CrossEngineOperand
  | SameEngine s =>
      match _series s with
      | OSeries o =>
          if Nat.eqb (length (cells o)) index then Ok (OSeries o)
          else
            match cells o with
            | [c] => Ok (OScalar c)
            | _ => Raise ShapeMismatch
            end
      | OScalar c => Ok (OScalar c)
      end
  end.

#[export] Instance engine : PandasEngine obj operand nat dtype := {
  Pandas.validate_column_comparand := validate_column_comparand;
  pd_version := [2; 2; 3];
  Pandas.is_extension_array_dtype := is_extension_array_dtype;
  pd_name := name_of;
  pd_index := index;
  pd_dtype := dtype_of;
  pd_dunder := dunder;
  pd_rename := rename;
  pd_median := median;
  pd_isna := isna;
  pd_fillna := fillna;
  pd_sort_values := sort_values
}.

(** [pd.Series(cells)] handed to the adapter. *)
Definition wrap (s : Series) : PandasSeries obj := __init__ (OSeries s) "pandas".

(** The cells a column of a dtype can hold. *)
Definition cell_has_dtype (d : dtype) (c : cell) : bool :=
  match d, c with
  | float64, Float _ | int64, Int _ | bool_, Bool _ => true
  | object_, _ => true
  | Float64, (Float _ | NA) | Int64, (Int _ | NA) => true
  | boolean, (Bool _ | NA) | string_, (Str _ | NA) => true
  | category, (Str _ | NA) | datetime64_tz, (Int _ | NA) => true
  | _, _ => false
  end.

Definition well_formed (s : Series) : bool :=
  forallb (cell_has_dtype (dtype_ s)) (cells s).

(** A cell the engine finds unequal to itself; a cell for which the
    engine answers [NA] counts as not. *)
Definition unequal_to_itself (d : dtype) (c : cell) : bool :=
  match cell_ne d c c with
  | Bool b => b
  | _ => false
  end.

(** Under a masked dtype only a [NaN] is unequal to itself. *)
Lemma unequal_to_itself_masked (d : dtype) (c : cell) :
  is_masked_dtype d = true ->
  unequal_to_itself d c = cell_is_nan c.
Proof.
  intros Hd. destruct c as [|x|z|b|t]; unfold unequal_to_itself; simpl;
    try reflexivity.
  - now rewrite Hd.
  - now rewrite Z.eqb_refl.
  - now destruct b.
  - now rewrite String.eqb_refl.
Qed.

(** Under any other dtype a missing cell is unequal to itself as well. *)
Lemma unequal_to_itself_unmasked (d : dtype) (c : cell) :
  is_masked_dtype d = false ->
  unequal_to_itself d c = cell_is_nan c || cell_missing d c.
Proof.
  intros Hd. destruct c as [|x|z|b|t]; unfold unequal_to_itself; simpl.
  - now rewrite Hd.
  - destruct (PrimFloat.is_nan x) eqn:Hx; unfold PrimFloat.is_nan in Hx.
    + now rewrite Hx.
    + rewrite Hx. now destruct (is_extension_array_dtype d).
  - now rewrite Z.eqb_refl.
  - now destruct b.
  - now rewrite String.eqb_refl.
Qed.

Lemma zip_ne_self (d : dtype) (l : list cell) :
  zip_cells (fun a b => Ok (cell_ne d a b)) l l = Ok (map (fun c => cell_ne d c c) l).
Proof. induction l as [|c l IH]; simpl; [reflexivity | now rewrite IH]. Qed.

(** [fillna(False)] on the answer of [!=]: an [NA] becomes [False], a
    Boolean stays. *)
Lemma fill_ne_self (d d' : dtype) (c : cell) :
  (if cell_missing d' (cell_ne d c c) then Bool false else cell_ne d c c)
  = Bool (unequal_to_itself d c).
Proof.
  unfold unequal_to_itself.
  destruct c as [|x|z|b|t]; simpl; try reflexivity.
  now destruct (is_masked_dtype d).
Qed.

Lemma is_nan_extension (self : PandasSeries obj) (s : Series) :
  _series self = OSeries s ->
  is_extension_array_dtype (dtype_ s) = true ->
  is_nan self =
  ([Native "__ne__"; Native "fillna"],
   Ok (_from_series self
         (OSeries (mkSeries (name s) (comparison_dtype (dtype_ s))
                     (map (fun c => Bool (unequal_to_itself (dtype_ s) c))
                          (cells s)))))).
Proof.
  intros Hs Hext. unfold is_nan. rewrite Hs. simpl. rewrite Hext.
  unfold dunder. simpl. rewrite zip_ne_self. simpl.
  rewrite map_map. do 5 f_equal.
  apply map_ext. intros c. apply fill_ne_self.
Qed.

Lemma is_nan_numpy (self : PandasSeries obj) (s : Series) :
  _series self = OSeries s ->
  is_extension_array_dtype (dtype_ s) = false ->
  is_nan self =
  ([Native "isna"],
   Ok (_from_series self
         (OSeries (mkSeries (name s) bool_
                     (map (fun c => Bool (cell_missing (dtype_ s) c)) (cells s)))))).
Proof.
  intros Hs Hext. unfold is_nan. rewrite Hs. simpl. rewrite Hext. reflexivity.
Qed.

Lemma missing_float64_is_nan (l : list cell) :
  forallb (cell_has_dtype float64) l = true ->
  map (fun c => Bool (cell_missing float64 c)) l
  = map (fun c => Bool (cell_is_nan c)) l.
Proof.
  induction l as [|c l IH]; simpl; [reflexivity|].
  intros H. apply andb_prop in H as [Hc Hl].
  rewrite (IH Hl). destruct c; simpl in *; try discriminate; reflexivity.
Qed.

(** The cells of the series a call returned. *)
Definition returned_cells (m : Exec (PandasSeries obj)) : option (list cell) :=
  match outcome m with
  | Ok r => match _series r with
            | OSeries s => Some (cells s)
            | OScalar _ => None
            end
  | Raise _ => None
  end.

(** C7 (amended).  On every extension dtype [is_nan] is
    [(ser != ser).fillna(False)]: a cell is marked exactly when the engine
    finds it unequal to itself, an [NA] answer counting as [False].  Under a
    masked dtype ([Float64], [Int64], [boolean], [string]) the comparison of
    a null is [NA], so the nulls are marked [False], the cells marked [True]
    are exactly the [NaN] ones, and a non-float column is all [False].  Under
    an extension dtype that is not masked ([category], timezone-aware
    [datetime64]) the engine finds a missing cell unequal to itself, so the
    missing cells are the ones marked [True].  Without an extension dtype
    [is_nan] is [isna]; on a float series, NumPy or masked, the cells marked
    [True] are exactly the [NaN] ones, and
    [Series([1.0, NaN, 3.0]).is_nan()] is [[False, True, False]]. *)
Theorem is_nan_marks_nan (self : PandasSeries obj) (s : Series) :
  _series self = OSeries s ->
  well_formed s = true ->
  (is_extension_array_dtype (dtype_ s) = true ->
     trace (is_nan self) = [Native "__ne__"; Native "fillna"] /\
     returned_cells (is_nan self)
     = Some (map (fun c => Bool (unequal_to_itself (dtype_ s) c)) (cells s))) /\
  (is_masked_dtype (dtype_ s) = true ->
     returned_cells (is_nan self)
     = Some (map (fun c => Bool (cell_is_nan c)) (cells s)) /\
     (is_float_dtype (dtype_ s) = false ->
      returned_cells (is_nan self) = Some (map (fun _ => Bool false) (cells s)))) /\
  (is_extension_array_dtype (dtype_ s) = true ->
   is_masked_dtype (dtype_ s) = false ->
     returned_cells (is_nan self)
     = Some (map (fun c => Bool (cell_missing (dtype_ s) c)) (cells s))) /\
  (is_extension_array_dtype (dtype_ s) = false ->
     trace (is_nan self) = [Native "isna"] /\
     returned_cells (is_nan self)
     = Some (map (fun c => Bool (cell_missing (dtype_ s) c)) (cells s))) /\
  (is_float_dtype (dtype_ s) = true ->
     returned_cells (is_nan self)
     = Some (map (fun c => Bool (cell_is_nan c)) (cells s))) /\
  returned_cells
    (is_nan (wrap (mkSeries None float64 [Float 1; Float nan; Float 3])))
  = Some [Bool false; Bool true; Bool false].
Proof.
  intros Hs Hwf.
  assert (Hcells : forall c, In c (cells s) -> cell_has_dtype (dtype_ s) c = true).
  { intros c Hin. unfold well_formed in Hwf. rewrite forallb_forall in Hwf.
    now apply Hwf. }
  assert (Hmasked : is_masked_dtype (dtype_ s) = true ->
                    is_extension_array_dtype (dtype_ s) = true)
    by (destruct (dtype_ s); simpl; congruence).
  assert (Hmarks : is_masked_dtype (dtype_ s) = true ->
            returned_cells (is_nan self)
            = Some (map (fun c => Bool (cell_is_nan c)) (cells s))).
  { intros Hm. rewrite (is_nan_extension self s Hs (Hmasked Hm)).
    unfold returned_cells. simpl. f_equal. apply map_ext. intros c.
    now rewrite (unequal_to_itself_masked _ c Hm). }
  split; [|split; [|split; [|split; [|split]]]].
  - intros Hext. rewrite (is_nan_extension self s Hs Hext). now split.
  - intros Hm. split; [now apply Hmarks|].
    intros Hfloat. rewrite (Hmarks Hm). f_equal.
    apply map_ext_in. intros c Hin. f_equal. specialize (Hcells c Hin).
    destruct (dtype_ s), c; simpl in *; try discriminate; reflexivity.
  - intros Hext Hm. rewrite (is_nan_extension self s Hs Hext).
    unfold returned_cells. simpl. f_equal.
    apply map_ext_in. intros c Hin. f_equal. specialize (Hcells c Hin).
    rewrite (unequal_to_itself_unmasked _ c Hm).
    destruct (dtype_ s), c; simpl in *; try discriminate; reflexivity.
  - intros Hext. rewrite (is_nan_numpy self s Hs Hext). now split.
  - intros Hfloat. destruct (is_masked_dtype (dtype_ s)) eqn:Hm.
    + now apply Hmarks.
    + assert (Hd : dtype_ s = float64)
        by (destruct (dtype_ s); simpl in *; congruence).
      rewrite (is_nan_numpy self s Hs) by (now rewrite Hd).
      unfold returned_cells. simpl. f_equal. rewrite Hd.
      apply missing_float64_is_nan. unfold well_formed in Hwf. now rewrite Hd in Hwf.
  - reflexivity.
Qed.

End pd.

End Pandas.

(** ** Both adapters *)

Section Adapters.

Context {NObj Arg Version DType NativeDType : Type}.
Context {E : Polars.PolarsEngine NObj Arg Version DType NativeDType}.
Context {PObj PArg Index PDtype : Type}.
Context {P : Pandas.PandasEngine PObj PArg Index PDtype}.

(** C3 (amended).  On the pandas-like adapter every binary operator runs
    the comparand validator before anything else: when the validator rejects
    the operand (a [ShapeMismatch] for two series of different lengths,
    neither of length one), each of them raises that exception and the engine
    is never called.  On the Polars adapter no operator validates: each one
    unwraps the operand and calls the engine first. *)
Theorem binary_operators_shape_check
    (ps : Pandas.PandasSeries PObj) (pother : PArg) (e : exn)
    (s : Polars.PolarsSeries NObj Version) (other : Arg) :
  Pandas.validate_column_comparand (Pandas.pd_index (Pandas._series ps)) pother
  = Raise e ->
  Forall (fun op => snd op ps pother = raise e) Pandas.binary_operators /\
  Forall (fun op => exists rest,
            trace (snd op s other) = Native (fst op) :: rest)
         Polars.binary_operators.
Proof.
  intros Hv. split.
  - now apply Pandas.binary_operators_validate_first.
  - apply Polars.binary_operators_call_engine.
Qed.

(** C4 (amended).  The Polars adapter checks the dtype: [median] on a
    non-numeric series raises [InvalidOperationError] without calling the
    engine, and on a numeric one it is the engine's [median].  The
    pandas-like adapter does not check: its [median] is the engine's, for
    every dtype. *)
Theorem median_dtype_check
    (s : Polars.PolarsSeries NObj Version) (ps : Pandas.PandasSeries PObj) :
  (Polars.is_numeric (Polars.dtype s) = false ->
     Polars.median s =
     raise (InvalidOperationError
              "`median` operation not supported for non-numeric input type.")) /\
  (Polars.is_numeric (Polars.dtype s) = true ->
     Polars.median s =
     ([Native "median"], Polars.native_median (Polars._native_series s))) /\
  Pandas.median ps = ([Native "median"], Pandas.pd_median (Pandas._series ps)).
Proof.
  split; [apply Polars.median_non_numeric|].
  split; [apply Polars.median_numeric | apply Pandas.median_forwards].
Qed.

End Adapters.

(** ** [value_counts] on both sides of 1.0 *)



(** ** The statements above on concrete inputs *)

Module Examples.

Import Polars.native.

Definition ints_1_3 (backend_version : list Z) : Polars.PolarsSeries obj unit :=
  wrap "a" [Some (I 1); Some (I 2); Some (I 3)] backend_version.

Definition ints_1_5 (backend_version : list Z) : Polars.PolarsSeries obj unit :=
  wrap "b" [Some (I 1); Some (I 2); Some (I 3); Some (I 4); Some (I 5)]
    backend_version.

Definition words (backend_version : list Z) : Polars.PolarsSeries obj unit :=
  wrap "w" [Some (S "x"); Some (S "y")] backend_version.

Definition half : Polars.ewm_kwargs :=
  Polars.mkEwm None None None (Some 0.5%float) false 1 false.

Definition with_nulls : Polars.pl.Series Z :=
  Polars.pl.mkSeries "x" [Some 3; None; Some 1; None; Some 2].

Definition store_1 : gmap positive (list (option Z)) :=
  {[ 1%positive := [Some 1; Some 2; Some 3] ]}.

Definition pd_ints (l : list Z) : Pandas.PandasSeries Pandas.pd.obj :=
  Pandas.pd.wrap (Pandas.pd.mkSeries None Pandas.pd.int64 (map Pandas.pd.Int l)).

Definition pd_words : Pandas.PandasSeries Pandas.pd.obj :=
  Pandas.pd.wrap
    (Pandas.pd.mkSeries (Some (Pandas.LStr "w")) Pandas.pd.object_
       [Pandas.pd.Str "x"; Pandas.pd.Str "y"]).

Definition pd_flags : Pandas.PandasSeries Pandas.pd.obj :=
  Pandas.pd.wrap
    (Pandas.pd.mkSeries None Pandas.pd.bool_
       [Pandas.pd.Bool true; Pandas.pd.Bool false; Pandas.pd.Bool true]).

Definition pd_nullable_floats : Pandas.pd.Series :=
  Pandas.pd.mkSeries None Pandas.pd.Float64
    [Pandas.pd.Float 1; Pandas.pd.NA; Pandas.pd.Float nan].

Definition pd_nullable_ints : Pandas.pd.Series :=
  Pandas.pd.mkSeries None Pandas.pd.Int64 [Pandas.pd.Int 1; Pandas.pd.NA].

(** C1 on [[3, null, 1, null, 2]], at 0.20.5 and at 0.20.6. *)
Lemma sort_nulls_last_example :
  Polars.sort sort_legacy sort (Polars.__init__ with_nulls [0; 20; 5] tt) true true
  = Ok (Polars.__init__
          (Polars.pl.mkSeries "x" [Some 3; Some 2; Some 1; None; None])
          [0; 20; 5] tt) /\
  Polars.sort sort_legacy sort (Polars.__init__ with_nulls [0; 20; 6] tt) true true
  = Ok (Polars.__init__
          (Polars.pl.mkSeries "x" [Some 3; Some 2; Some 1; None; None])
          [0; 20; 6] tt).
Proof.
  destruct (Polars.sort_nulls_last_on_both_branches
              sort_legacy sort sort_values
              (fun d s => eq_refl)
              (fun d s => non_nulls_nulls_first _ _)
              (fun d s => null_count_nulls_first _ _)
              (fun d s => eq_refl)
              with_nulls tt [0; 20; 5] [0; 20; 6] true eq_refl eq_refl)
    as (Hpre & Hpost & _).
  split; [exact Hpre | exact Hpost].
Defined.

(** C2, the claim as written, fails twice: [(1, 0)] is below [(1, 0, 0)]
    and passes the gate; and at [(0, 9, 9)] a return dtype that does not
    translate raises the translator's exception, not the gate's. *)
Lemma version_gate_counterexample :
  tuple_lt [1; 0] [1; 0; 0] = true /\
  Polars.ewm_mean (E := engine) (ints_1_3 [1; 0]) half
  = ([Native "ewm_mean"],
     Ok (wrap "a" [Some (F 1); Some (F 1.5); Some (F 2.25)] [1; 0])) /\
  tuple_lt [0; 9; 9] [1; 0; 0] = true /\
  Polars.replace_strict (E := engine) (ints_1_3 [0; 9; 9]) [] [] (Some Array)
  = ([], Raise (TypeError "no native representation")).
Proof. repeat split. Qed.

(** C2 (amended) at [(0, 9, 9)] and at [(1, 0, 0)]. *)
Lemma version_gate_example :
  (Polars.ewm_mean (E := engine) (ints_1_3 [0; 9; 9]) half
   = raise (NotImplementedError
              "`ewm_mean` not implemented for polars older than 1.0") /\
   Polars.replace_strict (E := engine) (ints_1_3 [0; 9; 9])
     [OScalar (Some (I 1))] [OScalar (Some (I 7))] (Some Int64)
   = raise (NotImplementedError
              "`replace_strict` is only available in Polars>=1.0, found version (0, 9, 9)")) /\
  (trace (Polars.ewm_mean (E := engine) (ints_1_3 [1; 0; 0]) half)
   = [Native "ewm_mean"] /\
   trace (Polars.replace_strict (E := engine) (ints_1_3 [1; 0; 0])
            [OScalar (Some (I 1))] [OScalar (Some (I 7))] (Some Int64))
   = [Native "replace_strict"]).
Proof.
  split.
  - destruct (Polars.version_gate (E := engine) (ints_1_3 [0; 9; 9]) half
                [OScalar (Some (I 1))] [OScalar (Some (I 7))] (Some Int64)
                (Some pl_Int64)
                ltac:(repeat constructor; lia) ltac:(discriminate)
                ltac:(discriminate) eq_refl)
      as [Hbelow _].
    exact (Hbelow eq_refl).
  - destruct (Polars.version_gate (E := engine) (ints_1_3 [1; 0; 0]) half
                [OScalar (Some (I 1))] [OScalar (Some (I 7))] (Some Int64)
                (Some pl_Int64)
                ltac:(repeat constructor; lia) ltac:(discriminate)
                ltac:(discriminate) eq_refl)
      as [_ Hfrom].
    destruct (Hfrom eq_refl) as [H1 H2]. rewrite H1, H2. split; reflexivity.
Defined.

(** C3, the claim as written, fails on the Polars adapter: adding a series
    of length 5 to one of length 3 reaches the engine, and the exception is
    the engine's. *)
Lemma shape_check_counterexample :
  Polars.__add__ (E := engine) (ints_1_3 [1; 0; 0]) (Wrapped (ints_1_5 [1; 0; 0]))
  = ([Native "__add__"], Raise (NativeException "ShapeError")).
Proof. reflexivity. Qed.

(** C3 (amended) on series of lengths 3 and 5. *)
Lemma shape_check_example :
  Forall (fun op => snd op (pd_ints [1; 2; 3])
                      (Pandas.pd.SameEngine (pd_ints [1; 2; 3; 4; 5]))
                    = raise ShapeMismatch)
         (Pandas.binary_operators (E := Pandas.pd.engine)) /\
  Forall (fun op => exists rest,
            trace (snd op (ints_1_3 [1; 0; 0]) (Wrapped (ints_1_5 [1; 0; 0])))
            = Native (fst op) :: rest)
         (Polars.binary_operators (E := engine)).
Proof.
  exact (binary_operators_shape_check (E := engine) (P := Pandas.pd.engine)
           (pd_ints [1; 2; 3]) (Pandas.pd.SameEngine (pd_ints [1; 2; 3; 4; 5]))
           ShapeMismatch (ints_1_3 [1; 0; 0]) (Wrapped (ints_1_5 [1; 0; 0]))
           eq_refl).
Defined.

(** C4, the claim as written, fails on the pandas-like adapter: [median]
    of a string series is whatever the engine does with it, and [median] of a
    Boolean series returns a number. *)
Lemma median_check_counterexample :
  Pandas.median (E := Pandas.pd.engine) pd_words
  = ([Native "median"], Raise (NativeException "TypeError")) /\
  Pandas.median (E := Pandas.pd.engine) pd_flags
  = ([Native "median"], Ok (Pandas.pd.OScalar (Pandas.pd.Float 1))).
Proof. split; reflexivity. Qed.

(** C4 (amended) on a string series and an integer series. *)
Lemma median_check_example :
  Polars.median (E := engine) (words [1; 0; 0])
  = raise (InvalidOperationError
             "`median` operation not supported for non-numeric input type.") /\
  Polars.median (E := engine) (ints_1_3 [1; 0; 0])
  = ([Native "median"], Ok (OScalar (Some (F 2)))) /\
  Pandas.median (E := Pandas.pd.engine) pd_words
  = ([Native "median"], Raise (NativeException "TypeError")).
Proof.
  destruct (median_dtype_check (E := engine) (P := Pandas.pd.engine)
              (words [1; 0; 0]) pd_words) as (Hnon & _ & Hpd).
  destruct (median_dtype_check (E := engine) (P := Pandas.pd.engine)
              (ints_1_3 [1; 0; 0]) pd_words) as (_ & Hnum & _).
  split; [exact (Hnon eq_refl)|]. split; [exact (Hnum eq_refl) | exact Hpd].
Defined.

(** C5 at its failing input: [dt.max] and [cat.is_local] return plain
    scalars, and the proxies hand each back inside an adapter series; the
    same scalar through the forwarder of the series comes back unwrapped. *)
Lemma namespace_wraps_scalar :
  Polars.dt__getattr__ (E := engine) (Polars.dt (ints_1_3 [1; 0; 0])) "max" [] []
  = ([Native "dt.max"],
     Ok (Polars.__init__ (OScalar (Some (I 3))) [1; 0; 0] tt)) /\
  Polars.cat__getattr__ (E := engine) (Polars.cat (words [1; 0; 0])) "is_local" [] []
  = ([Native "cat.is_local"],
     Ok (Polars.__init__ (OScalar (Some (B true))) [1; 0; 0] tt)) /\
  Polars._from_native_object (E := engine) (ints_1_3 [1; 0; 0]) (OScalar (Some (I 3)))
  = Polars.AsScalar (OScalar (Some (I 3))).
Proof. repeat split. Qed.

(** Two runs of the engine: one delivers the groups by first occurrence,
    the other the other way round. *)
Definition arrange {V} (run parallel : bool) (rows : list (option V * Z))
    : list (option V * Z) :=
  if run then rev rows else rows.




(** A column of categories with a missing cell. *)
Definition pd_categories : Pandas.pd.Series :=
  Pandas.pd.mkSeries None Pandas.pd.category [Pandas.pd.Str "a"; Pandas.pd.NA].

(** C7, the claim as written, fails on an extension dtype that is not
    masked: [category] is an extension dtype and not a float one, and the
    missing cell of a column of categories, which the engine finds unequal to
    itself, is marked [True]. *)
Lemma is_nan_counterexample :
  Pandas.pd.is_extension_array_dtype Pandas.pd.category = true /\
  Pandas.pd.is_float_dtype Pandas.pd.category = false /\
  Pandas.is_nan (E := Pandas.pd.engine) (Pandas.pd.wrap pd_categories)
  = ([Native "__ne__"; Native "fillna"],
     Ok (Pandas.pd.wrap
           (Pandas.pd.mkSeries None Pandas.pd.bool_
              [Pandas.pd.Bool false; Pandas.pd.Bool true]))).
Proof. repeat split. Qed.

(** C7 (amended) on a nullable float column, a nullable integer column and
    a column of categories. *)
Lemma is_nan_example :
  Pandas.pd.returned_cells
    (Pandas.is_nan (E := Pandas.pd.engine) (Pandas.pd.wrap pd_nullable_floats))
  = Some [Pandas.pd.Bool false; Pandas.pd.Bool false; Pandas.pd.Bool true] /\
  Pandas.pd.returned_cells
    (Pandas.is_nan (E := Pandas.pd.engine) (Pandas.pd.wrap pd_nullable_ints))
  = Some [Pandas.pd.Bool false; Pandas.pd.Bool false] /\
  Pandas.pd.returned_cells
    (Pandas.is_nan (E := Pandas.pd.engine) (Pandas.pd.wrap pd_categories))
  = Some [Pandas.pd.Bool false; Pandas.pd.Bool true].
Proof.
  destruct (Pandas.pd.is_nan_marks_nan (Pandas.pd.wrap pd_nullable_floats)
              pd_nullable_floats eq_refl eq_refl) as (_ & Hfloat & _).
  destruct (Pandas.pd.is_nan_marks_nan (Pandas.pd.wrap pd_nullable_ints)
              pd_nullable_ints eq_refl eq_refl) as (_ & Hints & _).
  destruct (Pandas.pd.is_nan_marks_nan (Pandas.pd.wrap pd_categories)
              pd_categories eq_refl eq_refl) as (_ & _ & Hcat & _).
  split; [exact (proj1 (Hfloat eq_refl))|].
  split; [exact (proj2 (Hints eq_refl) eq_refl) | exact (Hcat eq_refl eq_refl)].
Defined.

(** C8 on [as_py] and on [len]. *)
Lemma getattr_sentinel_example :
  Polars.__getattr__ (E := engine) (ints_1_3 [1; 0; 0]) "as_py" = raise AttributeError /\
  exists func,
    Polars.__getattr__ (E := engine) (ints_1_3 [1; 0; 0]) "len" = ret func /\
    func [] [] = ([Native "len"], Ok (Polars.AsScalar (OScalar (Some (I 3))))).
Proof.
  destruct (Polars.getattr_sentinel (E := engine) (ints_1_3 [1; 0; 0]) "as_py")
    as [Hsentinel _].
  destruct (Polars.getattr_sentinel (E := engine) (ints_1_3 [1; 0; 0]) "len")
    as [_ Hother].
  split; [exact (Hsentinel eq_refl)|].
  destruct (Hother ltac:(discriminate)) as (func & Hfunc & Hcall).
  exists func. split; [exact Hfunc|]. rewrite Hcall. reflexivity.
Defined.

(** [2 ** s] on a backend older than 1.16.1. *)
Lemma rpow_alias_example :
  Polars.__rpow__ (E := engine) (ints_1_3 [1; 16; 0]) (Plain (OScalar (Some (I 2))))
  = ([Native "__rpow__"; Native "alias"],
     Ok (wrap "a" [Some (I 2); Some (I 4); Some (I 8)] [1; 16; 0])).
Proof.
  exact (Polars.rpow_alias_workaround (E := engine) (ints_1_3 [1; 16; 0])
           (Plain (OScalar (Some (I 2))))
           (OSeries (Polars.pl.mkSeries "a" [Some (I 2); Some (I 4); Some (I 8)]))
           eq_refl).
Defined.

(** C10 on [[1, 2, 3]] with 9 written at 0 and 2. *)
Lemma scatter_example :
  fst (Polars.scatter scatter_extract_native scatter_data
         (Polars.__init__ 1%positive [1; 0; 0] tt) [0%nat; 2%nat]
         (SPlain (One (Some 9))) store_1) !! 1%positive
  = Some [Some 1; Some 2; Some 3] /\
  fresh (dom store_1) <> 1%positive.
Proof.
  destruct (Polars.scatter_leaves_self_unchanged scatter_extract_native scatter_data
              (Polars.__init__ 1%positive [1; 0; 0] tt) [0%nat; 2%nat]
              (SPlain (One (Some 9))) store_1 [Some 1; Some 2; Some 3] eq_refl)
    as (Hself & _ & Hnew & _).
  split; [exact Hself | exact Hnew].
Defined.

End Examples.

(** ** The rest of the Polars adapter *)

Module PolarsRest.

Import Polars.

(** Exceptions of the built-in classes the methods below can raise besides
    those of [Py.exn]. *)
Inductive error : Type :=
| IndexError (msg : string)
| AssertionError (msg : string)
| Earlier (e : exn).

Inductive completion (A : Type) : Type :=
| Return (a : A)
| Throw (e : error).
Arguments Return {A} a.
Arguments Throw {A} e.

Definition cbind {A B} (m : completion A) (k : A -> completion B)
    : completion B :=
  match m with
  | Return a => k a
  | Throw e => Throw e
  end.

Definition of_result {A} (r : result A) : completion A :=
  match r with
  | Ok a => Return a
  | Raise e => Throw (Earlier e)
  end.

(** [l.pop(i)] for [0 <= i]: the list without its [i]-th item (the item
    itself is what Python returns).  An empty list is refused first, then an
    index past the end, each with [IndexError]. *)
Definition list_pop {A} (l : list A) (i : nat) : completion (list A) :=
  match l with
  | [] => Throw (IndexError "pop from empty list")
  | _ :: _ =>
      if Nat.ltb i (length l) then Return (delete i l)
      else Throw (IndexError "pop index out of range")
  end.

(** [int(b)]. *)
Definition int_of_bool (b : bool) : nat := if b then 1%nat else 0%nat.

Lemma tuple_lt_trans (a b c : list Z) :
  tuple_lt a b = true -> tuple_lt b c = true -> tuple_lt a c = true.
Proof.
  revert b c. induction a as [|x a IH]; intros [|y b] [|z c]; simpl;
    try discriminate; try reflexivity.
  destruct (Z.eqb_spec x y) as [->|Hxy], (Z.eqb_spec y z) as [->|Hyz].
  - apply IH.
  - destruct (Z.eqb_spec y z); [contradiction|]. intros _ H. exact H.
  - destruct (Z.eqb_spec x z); [contradiction|]. intros H _. exact H.
  - rewrite !Z.ltb_lt. intros H1 H2.
    destruct (Z.eqb_spec x z); [lia|]. apply Z.ltb_lt. lia.
Qed.

(** *** Methods that only route *)
Section Routing.

Context {NObj Arg Version DType NativeDType Namespace : Type}.
Context {E : PolarsEngine NObj Arg Version DType NativeDType}.

(** [Implementation.to_native_namespace] of [narwhals.utils], not under
    src/. *)
Variable to_native_namespace : Implementation -> Namespace.

Local Abbreviation Series := (PolarsSeries NObj Version).

(** [type(self._implementation)] is the enumeration itself, whatever the
    member. *)
Definition __native_namespace__ (self : Series) : completion Namespace :=
  match _implementation self with
  | POLARS => Return (to_native_namespace (_implementation self))
  | _ => Throw (AssertionError "Expected polars, got: <enum 'Implementation'>")
  end.

(** The engine's [__contains__], and how an f-string prints the type of the
    operand and a dtype. *)
Variable native_contains : NObj -> Arg -> result bool.
Variable type_repr : Arg -> string.
Variable dtype_repr : DType -> string.

(** [except PlInvalidOperationError]: the engine's exception of that
    class. *)
Definition is_pl_invalid_operation (e : exn) : bool :=
  match e with
  | NativeException cls => String.eqb cls "InvalidOperationError"
  | _ => false
  end.

(** The operand goes to the engine as it is, not unwrapped. *)
Definition __contains__ (self : Series) (other : Arg) : Exec bool :=
  match native_contains (_native_series self) other with
  | Ok b => call "__contains__" (Ok b)
  | Raise exc =>
      if is_pl_invalid_operation exc then
        call "__contains__"
          (Raise (InvalidOperationError
                    ("Unable to compare other of type " +:+ type_repr other
                     +:+ " with series of type " +:+ dtype_repr (dtype self)
                     +:+ ".")))
      else call "__contains__" (Raise exc)
  end.

(** The adapter series the class itself can make. *)
Inductive built : Series -> Prop :=
| built_init (series : NObj) (backend_version : list Z) (version : Version) :
    built (__init__ series backend_version version)
| built_change_version (self : Series) (version : Version) :
    built self -> built (_change_version self version)
| built_from_native_series (self : Series) (series : NObj) :
    built self -> built (_from_native_series self series).

(** A call was refused by a version gate. *)
Definition refused {A} (m : Exec A) : Prop :=
  exists msg, m = raise (NotImplementedError msg).

(** [r] carries the engine tag and the two versions of [self]. *)
Definition same_identity (self r : Series) : Prop :=
  _backend_version r = _backend_version self /\
  _version r = _version self /\
  _implementation r = POLARS.

Lemma wrapped_outcome (t : list event) (res : result NObj)
    (self r : Series) :
  Py.outcome (t, rmap (_from_native_series self) res) = Ok r ->
  same_identity self r.
Proof.
  unfold Py.outcome, rmap, rbind. simpl.
  destruct res as [x|e]; [|discriminate].
  intros H. injection H as <-. now repeat split.
Qed.

Lemma dunder_keeps_identity (method : string) (self : Series) (other : Arg)
    (r : Series) :
  Py.outcome (dunder method self other) = Ok r -> same_identity self r.
Proof. rewrite dunder_calls_engine. apply wrapped_outcome. Qed.

Lemma rpow_keeps_identity (self : Series) (other : Arg) (r : Series) :
  Py.outcome (__rpow__ self other) = Ok r -> same_identity self r.
Proof.
  unfold __rpow__, call, bind, ret, Py.outcome.
  destruct (native_dunder _ _ _) as [x|e]; simpl; [|discriminate].
  destruct (tuple_lt _ _); simpl.
  - destruct (lookup_name_returns self) as [a ->]. unfold ret. simpl.
    destruct (native_alias _ _) as [y|e]; simpl; [|discriminate].
    intros H. injection H as <-. now repeat split.
  - intros H. injection H as <-. now repeat split.
Qed.

(** No method hands back a series under another engine tag, backend
    version or API version than those of the series it was called on: the 16
    binary operators, [ewm_mean], [replace_strict] and the three namespace
    proxies. *)
Theorem results_keep_identity (self : Series) (other : Arg) (kw : ewm_kwargs)
    (old new : list NObj) (return_dtype : option DType) (attr : string)
    (args : list Arg) (kwargs : list (string * Arg)) :
  Forall (fun op => forall r,
            Py.outcome (snd op self other) = Ok r -> same_identity self r)
         binary_operators /\
  (forall r, Py.outcome (ewm_mean self kw) = Ok r -> same_identity self r) /\
  (forall r, Py.outcome (replace_strict self old new return_dtype) = Ok r ->
             same_identity self r) /\
  (forall r, Py.outcome (dt__getattr__ (dt self) attr args kwargs) = Ok r ->
             same_identity self r) /\
  (forall r, Py.outcome (str__getattr__ (str self) attr args kwargs) = Ok r ->
             same_identity self r) /\
  (forall r, Py.outcome (cat__getattr__ (cat self) attr args kwargs) = Ok r ->
             same_identity self r).
Proof.
  split; [|split; [|split; [|split; [|split]]]].
  - unfold binary_operators.
    repeat (constructor;
            [first [ exact (rpow_keeps_identity self other)
                   | exact (dunder_keeps_identity _ self other) ] |]).
    constructor.
  - intros r. destruct (tuple_lt (_backend_version self) [1]) eqn:Hgate.
    + rewrite (ewm_mean_below self kw Hgate). discriminate.
    + rewrite (ewm_mean_from self kw Hgate). apply wrapped_outcome.
  - intros r.
    destruct (translate_return_dtype self return_dtype) as [d|e] eqn:Htr.
    + destruct (tuple_lt (_backend_version self) [1]) eqn:Hgate.
      * rewrite (replace_strict_below self old new return_dtype d Htr Hgate).
        discriminate.
      * rewrite (replace_strict_from self old new return_dtype d Htr Hgate).
        apply wrapped_outcome.
    + rewrite (replace_strict_translation_fails self old new return_dtype e Htr).
      discriminate.
  - intros r. rewrite dt_getattr_wraps. apply wrapped_outcome.
  - intros r. rewrite str_getattr_wraps. apply wrapped_outcome.
  - intros r. rewrite cat_getattr_wraps. apply wrapped_outcome.
Qed.

(** A series made by the class answers [__native_namespace__]: the
    assertion behind it cannot fail. *)
Theorem native_namespace_never_asserts (self : Series) :
  built self ->
  __native_namespace__ self = Return (to_native_namespace POLARS).
Proof.
  intros H. assert (Himpl : _implementation self = POLARS).
  { induction H; reflexivity. }
  unfold __native_namespace__. now rewrite Himpl.
Qed.

(** A version gate that refuses a backend refuses every older one, and one
    that lets a backend through to the engine lets every newer one through. *)
Theorem refusal_downward_closed (series : NObj) (version : Version)
    (u v : list Z) (kw : ewm_kwargs) (old new : list NObj)
    (return_dtype : option DType) :
  tuple_lt u v = true ->
  (refused (ewm_mean (__init__ series v version) kw) ->
   refused (ewm_mean (__init__ series u version) kw)) /\
  (refused (replace_strict (__init__ series v version) old new return_dtype) ->
   refused (replace_strict (__init__ series u version) old new return_dtype)) /\
  (trace (ewm_mean (__init__ series u version) kw) = [Native "ewm_mean"] ->
   trace (ewm_mean (__init__ series v version) kw) = [Native "ewm_mean"]) /\
  (trace (replace_strict (__init__ series u version) old new return_dtype)
   = [Native "replace_strict"] ->
   trace (replace_strict (__init__ series v version) old new return_dtype)
   = [Native "replace_strict"]).
Proof.
  intros Huv.
  assert (Hdown : tuple_lt v [1] = true -> tuple_lt u [1] = true).
  { intros Hv. now apply tuple_lt_trans with v. }
  set (su := __init__ series u version). set (sv := __init__ series v version).
  assert (Htr : translate_return_dtype su return_dtype
                = translate_return_dtype sv return_dtype) by reflexivity.
  split; [|split; [|split]].
  - intros [msg Hv]. destruct (tuple_lt v [1]) eqn:Hgate.
    + eexists. apply ewm_mean_below. simpl. now apply Hdown.
    + rewrite (ewm_mean_from sv kw Hgate) in Hv. discriminate.
  - intros [msg Hv].
    destruct (translate_return_dtype sv return_dtype) as [d|e] eqn:Hd.
    + destruct (tuple_lt v [1]) eqn:Hgate.
      * eexists. apply replace_strict_below with d; [now rewrite Htr|].
        simpl. now apply Hdown.
      * rewrite (replace_strict_from sv old new return_dtype d Hd Hgate) in Hv.
        discriminate.
    + rewrite (replace_strict_translation_fails sv old new return_dtype e Hd) in Hv.
      exists msg. rewrite <- Hv.
      apply replace_strict_translation_fails. now rewrite Htr.
  - intros Hu. destruct (tuple_lt v [1]) eqn:Hgate.
    + rewrite (ewm_mean_below su kw (Hdown eq_refl)) in Hu. discriminate.
    + now rewrite (ewm_mean_from sv kw Hgate).
  - intros Hu.
    destruct (translate_return_dtype sv return_dtype) as [d|e] eqn:Hd.
    + destruct (tuple_lt v [1]) eqn:Hgate.
      * rewrite (replace_strict_below su old new return_dtype d) in Hu;
          [discriminate | now rewrite Htr | exact (Hdown eq_refl)].
      * now rewrite (replace_strict_from sv old new return_dtype d Hd Hgate).
    + rewrite (replace_strict_translation_fails su old new return_dtype e) in Hu;
        [discriminate | now rewrite Htr].
Qed.

(** [__contains__] turns the engine's [InvalidOperationError] into the
    [InvalidOperationError] of [narwhals.exceptions], so the engine's own never
    leaves the adapter; an answer, or any other exception, passes through
    unchanged.  The engine is called once in every case. *)
Theorem contains_translates_invalid_operation (self : Series) (other : Arg) :
  trace (__contains__ self other) = [Native "__contains__"] /\
  Py.outcome (__contains__ self other)
  <> Raise (NativeException "InvalidOperationError") /\
  (native_contains (_native_series self) other
   = Raise (NativeException "InvalidOperationError") ->
   exists msg,
     Py.outcome (__contains__ self other) = Raise (InvalidOperationError msg)) /\
  (forall e, is_pl_invalid_operation e = false ->
     native_contains (_native_series self) other = Raise e ->
     Py.outcome (__contains__ self other) = Raise e) /\
  (forall b, native_contains (_native_series self) other = Ok b ->
     Py.outcome (__contains__ self other) = Ok b).
Proof.
  unfold __contains__.
  destruct (native_contains (_native_series self) other) as [b|e] eqn:Hn.
  - repeat split; try discriminate. intros b' H. now injection H as <-.
  - destruct (is_pl_invalid_operation e) eqn:He; simpl.
    + repeat split; try discriminate.
      * intros _. now eexists.
      * intros e' He' H. injection H as <-. congruence.
    + repeat split; try discriminate.
      * intros H. injection H as ->. discriminate.
      * intros H. injection H as ->. discriminate.
      * intros e' _ H. now injection H as <-.
Qed.

End Routing.

(** *** [scatter] again *)
Section Scatter.

Context {Data Indices Arg NVal Version : Type}.
Variable extract_native : Arg -> NVal.
Variable native_scatter :
  gmap positive Data -> Data -> Indices -> NVal -> result Data.

Lemma scatter_returned (self r : PolarsSeries positive Version)
    (indices : Indices) (values : Arg) (h h' : gmap positive Data) (d : Data) :
  h !! _native_series self = Some d ->
  scatter extract_native native_scatter self indices values h = (h', Ok r) ->
  exists d',
    h' = <[fresh (dom h) := d']> h /\
    r = _from_native_series self (fresh (dom h)).
Proof.
  intros Hself Hs.
  destruct (native_scatter (<[fresh (dom h) := d]> h) d indices
              (extract_native values)) as [d'|e] eqn:Hn.
  - rewrite (scatter_returns extract_native native_scatter self indices values
               h d d' Hself Hn) in Hs.
    injection Hs as <- <-. now exists d'.
  - rewrite (scatter_raises extract_native native_scatter self indices values
               h d e Hself Hn) in Hs.
    discriminate.
Qed.

(** Two [scatter] calls in a row, the second on any series [other] of the
    store (the first one's [self], its result, or a third one): each returns
    a series of its own, and the second one changes neither the result of the
    first nor [self]. *)
Theorem scatter_results_independent (self other r1 r2 : PolarsSeries positive Version)
    (i1 i2 : Indices) (v1 v2 : Arg) (h h1 h2 : gmap positive Data) (d d_other : Data) :
  h !! _native_series self = Some d ->
  scatter extract_native native_scatter self i1 v1 h = (h1, Ok r1) ->
  h1 !! _native_series other = Some d_other ->
  scatter extract_native native_scatter other i2 v2 h1 = (h2, Ok r2) ->
  _native_series r2 <> _native_series r1 /\
  _native_series r2 <> _native_series self /\
  _native_series r1 <> _native_series self /\
  is_Some (h1 !! _native_series r1) /\
  h2 !! _native_series r1 = h1 !! _native_series r1 /\
  h2 !! _native_series self = Some d.
Proof.
  intros Hself H1 Hother H2.
  destruct (scatter_returned self r1 i1 v1 h h1 d Hself H1) as (d1 & -> & ->).
  destruct (scatter_returned other r2 i2 v2 _ h2 d_other Hother H2) as (d2 & -> & ->).
  simpl.
  set (l1 := fresh (dom h)) in *.
  set (l2 := fresh (dom (<[l1 := d1]> h))).
  assert (Hl1 : h !! l1 = None) by apply fresh_not_in_store.
  assert (Hl2 : <[l1 := d1]> h !! l2 = None) by apply fresh_not_in_store.
  assert (Hne1 : l1 <> _native_series self) by (intros Heq; congruence).
  assert (Hne21 : l2 <> l1).
  { intros Heq. rewrite Heq, lookup_insert_eq in Hl2. discriminate. }
  assert (Hne2 : l2 <> _native_series self).
  { intros Heq. rewrite Heq, lookup_insert_ne in Hl2 by exact Hne1. congruence. }
  repeat split; try assumption.
  - rewrite lookup_insert_eq. now eexists.
  - now rewrite lookup_insert_ne.
  - rewrite !lookup_insert_ne by assumption. exact Hself.
Qed.

End Scatter.

(** *** [to_dummies] *)
Section ToDummies.

Context {N F Version : Type}.

(** The engine: [s.is_null().any()]; [s.to_dummies(separator=)], all a
    backend older than 0.20.15 offers; [s.to_dummies(separator=,
    drop_first=)]; the names of the columns of a frame;
    [f.select(names)]; [f.with_columns(pl.all().cast(pl.Int8))]. *)
Variable native_has_nulls : N -> result bool.
Variable native_to_dummies_legacy : N -> string -> result F.
Variable native_to_dummies : N -> string -> bool -> result F.
Variable columns : F -> list string.
Variable native_select : F -> list string -> result F.
Variable native_cast_all_int8 : F -> result F.

Definition to_dummies (self : PolarsSeries N Version) (separator : string)
    (drop_first : bool) : completion (PolarsDataFrame F Version) :=
  cbind
    (if tuple_lt (_backend_version self) [0; 20; 15] then
       cbind (of_result (native_has_nulls (_native_series self))) (fun has_nulls =>
       cbind (of_result (native_to_dummies_legacy (_native_series self) separator))
         (fun result =>
       let output_columns := columns result in
       cbind (if drop_first
              then list_pop output_columns (int_of_bool has_nulls)
              else Return output_columns) (fun output_columns =>
       of_result (native_select result output_columns))))
     else
       of_result (native_to_dummies (_native_series self) separator drop_first))
    (fun result =>
  cbind (of_result (native_cast_all_int8 result)) (fun result =>
  Return (mkPolarsDataFrame result (_backend_version self) (_version self)))).

(** What is left to do once the columns are chosen. *)
Definition finish (self : PolarsSeries N Version) (result : F)
    (names : list string) : completion (PolarsDataFrame F Version) :=
  cbind (of_result (native_select result names)) (fun result =>
  cbind (of_result (native_cast_all_int8 result)) (fun result =>
  Return (mkPolarsDataFrame result (_backend_version self) (_version self)))).

Lemma list_pop_in_range {A} (l : list A) (i : nat) :
  (i < length l)%nat ->
  list_pop l i = Return (take i l ++ drop (S i) l).
Proof.
  intros Hi. unfold list_pop. destruct l as [|x l]; [simpl in Hi; lia|].
  destruct (Nat.ltb_spec i (length (x :: l))); [|lia].
  f_equal. apply delete_take_drop.
Qed.

Lemma list_pop_out_of_range {A} (l : list A) (i : nat) :
  l <> [] -> (length l <= i)%nat ->
  list_pop l i = Throw (IndexError "pop index out of range").
Proof.
  intros Hl Hi. unfold list_pop. destruct l as [|x l]; [congruence|].
  destruct (Nat.ltb_spec i (length (x :: l))); [lia | reflexivity].
Qed.

(** On a backend older than 0.20.15 [drop_first] is done by hand: the
    adapter drops the column at position 0 when the series has no null and at
    position 1 when it has one, so that the column at position 0 stays, and
    keeps the others in order.  When the engine's frame has no column at that
    position (no column at all, or a single column for a series with nulls)
    the call ends in the [IndexError] of [list.pop]. *)
Theorem to_dummies_legacy_drop_first (self : PolarsSeries N Version)
    (separator : string) (has_nulls : bool) (result : F) :
  tuple_lt (_backend_version self) [0; 20; 15] = true ->
  native_has_nulls (_native_series self) = Ok has_nulls ->
  native_to_dummies_legacy (_native_series self) separator = Ok result ->
  let i := int_of_bool has_nulls in
  (columns result = [] ->
     to_dummies self separator true
     = Throw (IndexError "pop from empty list")) /\
  (columns result <> [] -> (length (columns result) <= i)%nat ->
     to_dummies self separator true
     = Throw (IndexError "pop index out of range")) /\
  ((i < length (columns result))%nat ->
     to_dummies self separator true
     = finish self result (take i (columns result) ++ drop (S i) (columns result))) /\
  to_dummies self separator false = finish self result (columns result).
Proof.
  intros Hgate Hnulls Hraw i. subst i. unfold to_dummies, finish.
  rewrite Hgate, Hnulls, Hraw. cbn [of_result cbind]. repeat split.
  - intros ->. reflexivity.
  - intros Hl Hi. now rewrite (list_pop_out_of_range _ _ Hl Hi).
  - intros Hi. now rewrite (list_pop_in_range _ _ Hi).
Qed.

End ToDummies.

(** *** [cum_count] *)
Section CumCount.

Context {V Version : Type}.

(** The engine: [m.cum_sum(reverse=)] on a Boolean series, and
    [s.cum_count(reverse=)], which a backend older than 0.20.4 lacks. *)
Variable native_cum_sum : bool -> pl.Series bool -> pl.Series Z.
Variable native_cum_count : bool -> pl.Series V -> pl.Series Z.

Definition cum_count (self : PolarsSeries (pl.Series V) Version) (reverse : bool)
    : PolarsSeries (pl.Series Z) Version :=
  let result :=
    if tuple_lt (_backend_version self) [0; 20; 4] then
      let not_null_series := pl.invert (pl.is_null (_native_series self)) in
      native_cum_sum reverse not_null_series
    else native_cum_count reverse (_native_series self) in
  __init__ result (_backend_version self) (_version self).

(** How many of the flags up to each position are set; with [reverse], from
    each position on. *)
Fixpoint running_count (before : Z) (flags : list bool) : list Z :=
  match flags with
  | [] => []
  | b :: rest =>
      let now := before + (if b then 1 else 0) in
      now :: running_count now rest
  end.

Definition cumulative (reverse : bool) (flags : list bool) : list Z :=
  if reverse then rev (running_count 0 (rev flags)) else running_count 0 flags.

(** What the engine promises: [cum_sum] of a Boolean series without nulls
    counts its [true] cells, [cum_count] counts the non-null cells; both keep
    the name. *)
Hypothesis cum_sum_counts : forall reverse m flags,
  pl.cells m = map Some flags ->
  native_cum_sum reverse m
  = pl.mkSeries (pl.name m) (map Some (cumulative reverse flags)).
Hypothesis cum_count_counts : forall reverse s,
  native_cum_count reverse s
  = pl.mkSeries (pl.name s)
      (map Some (cumulative reverse
                   (map (fun c => negb (pl.is_none c)) (pl.cells s)))).

Lemma not_null_mask (s : pl.Series V) :
  pl.cells (pl.invert (pl.is_null s))
  = map Some (map (fun c => negb (pl.is_none c)) (pl.cells s)).
Proof.
  unfold pl.invert, pl.is_null. simpl. rewrite !map_map. reflexivity.
Qed.

(** Both branches of [cum_count] return the same series, whatever the
    backend version: the running number of non-null cells, under the name of
    the input. *)
Theorem cum_count_same_on_both_branches (s : pl.Series V) (v : Version)
    (bv_pre bv_post : list Z) (reverse : bool) :
  tuple_lt bv_pre [0; 20; 4] = true ->
  tuple_lt bv_post [0; 20; 4] = false ->
  _native_series (cum_count (__init__ s bv_pre v) reverse)
  = _native_series (cum_count (__init__ s bv_post v) reverse) /\
  pl.name (_native_series (cum_count (__init__ s bv_pre v) reverse)) = pl.name s /\
  length (pl.cells (_native_series (cum_count (__init__ s bv_pre v) reverse)))
  = length (pl.cells s).
Proof.
  intros Hpre Hpost. unfold cum_count. simpl. rewrite Hpre, Hpost.
  rewrite (cum_sum_counts reverse _ _ (not_null_mask s)), cum_count_counts.
  simpl. repeat split.
  rewrite length_map. unfold cumulative.
  assert (Hlen : forall acc flags, length (running_count acc flags) = length flags).
  { intros acc flags. revert acc. induction flags as [|b r IH]; intros acc; simpl;
      [reflexivity | now rewrite IH]. }
  destruct reverse; [rewrite length_rev, Hlen, length_rev | rewrite Hlen];
    now rewrite length_map.
Qed.

End CumCount.

(** *** The gate among the other version branches *)
Section Gate.

Context {NObj Arg Version DType NativeDType : Type}.
Context {E : PolarsEngine NObj Arg Version DType NativeDType}.
Context {V Run N F : Type}.

(** The engines of [cum_count], [sort], [to_dummies] and [value_counts]. *)
Variable native_cum_sum : bool -> pl.Series bool -> pl.Series Z.
Variable native_cum_count : bool -> pl.Series V -> pl.Series Z.
Variable native_sort_legacy : bool -> pl.Series V -> pl.Series V.
Variable native_sort : bool -> bool -> pl.Series V -> pl.Series V.
Variable native_has_nulls : N -> result bool.
Variable native_to_dummies_legacy : N -> string -> result F.
Variable native_to_dummies : N -> string -> bool -> result F.
Variable columns : F -> list string.
Variable native_select : F -> list string -> result F.
Variable native_cast_all_int8 : F -> result F.
Variable eqb : V -> V -> bool.
Variable arrange : Run -> bool -> list (option V * Z) -> list (option V * Z).

Lemma refused_below (o : NObj) (v : list Z) (version : Version) (kw : ewm_kwargs) :
  refused (ewm_mean (__init__ o v version) kw) -> tuple_lt v [1] = true.
Proof.
  intros [msg H]. destruct (tuple_lt v [1]) eqn:Hgate; [reflexivity|].
  rewrite (ewm_mean_from (__init__ o v version) kw Hgate) in H. discriminate.
Qed.

Lemma passed_from (o : NObj) (v : list Z) (version : Version) (kw : ewm_kwargs) :
  trace (ewm_mean (__init__ o v version) kw) = [Native "ewm_mean"] ->
  tuple_lt v [1] = false.
Proof.
  intros H. destruct (tuple_lt v [1]) eqn:Hgate; [|reflexivity].
  rewrite (ewm_mean_below (__init__ o v version) kw Hgate) in H. discriminate.
Qed.

Lemma not_below (v t : list Z) :
  tuple_lt v [1] = false -> tuple_lt t [1] = true -> tuple_lt v t = false.
Proof.
  intros Hv Ht. destruct (tuple_lt v t) eqn:Hvt; [|reflexivity].
  rewrite (tuple_lt_trans v t [1] Hvt Ht) in Hv. discriminate.
Qed.

(** The gate of [ewm_mean] and [replace_strict] parts the other version
    branches of the adapter.  A backend that [ewm_mean] refuses is refused by
    [replace_strict] as well (once the return dtype is translated), counts
    values through the legacy branch of [value_counts] and gets the aliasing
    [__rpow__].  A backend that [ewm_mean] lets through to the engine takes
    the native [cum_count], the native [sort] with [nulls_last] and the native
    [to_dummies] with [drop_first]: none of the three workarounds. *)
Theorem gate_parts_version_branches (v : list Z) (version : Version)
    (o : NObj) (kw : ewm_kwargs) (old new : list NObj)
    (return_dtype : option DType) (other : Arg)
    (s : pl.Series V) (n : N) (run : Run)
    (sort_ parallel normalize reverse descending nulls_last drop_first : bool)
    (name : option string) (separator : string) :
  (refused (ewm_mean (__init__ o v version) kw) ->
     (forall d, translate_return_dtype (__init__ o v version) return_dtype = Ok d ->
        refused (replace_strict (__init__ o v version) old new return_dtype)) /\
     value_counts eqb arrange run (__init__ s v version) sort_ parallel name normalize
     = (let* counts := pl.value_counts_legacy eqb arrange run s sort_ parallel in
        let* result :=
          pl.select counts
            (dict_of
               [ (pl.name s, pl.col (pl.name s));
                 (str_or name (if normalize then "proportion" else "count"),
                  if normalize
                  then pl.truediv (pl.col "count") (pl.sum "count")
                  else pl.col "count") ]) in
        Ok (mkPolarsDataFrame result v version)) /\
     (forall r, native_dunder "__rpow__" o (extract_native other) = Ok r ->
        trace (__rpow__ (__init__ o v version) other)
        = [Native "__rpow__"; Native "alias"])) /\
  (trace (ewm_mean (__init__ o v version) kw) = [Native "ewm_mean"] ->
     cum_count native_cum_sum native_cum_count (__init__ s v version) reverse
     = __init__ (native_cum_count reverse s) v version /\
     sort native_sort_legacy native_sort (__init__ s v version) descending nulls_last
     = Ok (__init__ (native_sort descending nulls_last s) v version) /\
     to_dummies native_has_nulls native_to_dummies_legacy native_to_dummies columns
       native_select native_cast_all_int8 (__init__ n v version) separator drop_first
     = cbind (of_result (native_to_dummies n separator drop_first)) (fun result =>
       cbind (of_result (native_cast_all_int8 result)) (fun result =>
       Return (mkPolarsDataFrame result v version)))).
Proof.
  split.
  - intros Href. pose proof (refused_below o v version kw Href) as Hgate.
    split; [|split].
    + intros d Hd. eexists.
      now apply (replace_strict_below (__init__ o v version) old new return_dtype d).
    + unfold value_counts. cbn [_backend_version _native_series _version __init__].
      rewrite (tuple_lt_trans v [1] [1; 0; 0] Hgate eq_refl).
      now destruct (pl.value_counts_legacy eqb arrange run s sort_ parallel).
    + intros r Hr. unfold __rpow__.
      cbn [_backend_version _native_series __init__]. rewrite Hr.
      rewrite (tuple_lt_trans v [1] [1; 16; 1] Hgate eq_refl).
      unfold call, bind, trace.
      destruct (lookup_name_returns (__init__ o v version)) as [a ->].
      unfold ret. simpl. now destruct (native_alias r a).
  - intros Hpass. pose proof (passed_from o v version kw Hpass) as Hgate.
    split; [|split].
    + unfold cum_count. cbn [_backend_version _native_series _version __init__].
      now rewrite (not_below v [0; 20; 4] Hgate eq_refl).
    + unfold sort. cbn [_backend_version _native_series _version __init__].
      now rewrite (not_below v [0; 20; 6] Hgate eq_refl).
    + unfold to_dummies. cbn [_backend_version _native_series _version __init__].
      now rewrite (not_below v [0; 20; 15] Hgate eq_refl).
Qed.

End Gate.

End PolarsRest.

(** ** The rest of the pandas-like adapter *)

Module PandasRest.

Import Pandas.

Section Routing.

Context {PObj Arg Index PDtype : Type}.
Context {E : PandasEngine PObj Arg Index PDtype}.

(** The engine: [ser.loc[mask]] and [ser.where(mask, other)]. *)
Variable pd_loc : PObj -> PObj -> result PObj.
Variable pd_where : PObj -> PObj -> PObj -> result PObj.

Local Abbreviation Series := (PandasSeries PObj).

Definition rename (self : Series) (name : string) : Exec Series :=
  let ser := _series self in
  do r <- _rename self ser (Some (LStr name));
  ret (_from_series self r).

Definition alias (self : Series) (name : string) : Exec Series :=
  let ser := _series self in
  do r <- _rename self ser (Some (LStr name));
  ret (_from_series self r).

Definition filter (self : Series) (mask : Arg) : Exec Series :=
  let ser := _series self in
  do mask <- lift (validate_column_comparand (pd_index (_series self)) mask);
  do r <- call "loc" (pd_loc ser mask);
  ret (_from_series self r).

Definition zip_with (self : Series) (mask other : Arg) : Exec Series :=
  do mask <- lift (validate_column_comparand (pd_index (_series self)) mask);
  do other <- lift (validate_column_comparand (pd_index (_series self)) other);
  let ser := _series self in
  do r <- call "where" (pd_where ser mask other);
  ret (_from_series self r).

(** [str] of a native name, [None] giving the empty string. *)
Definition name_string (n : option label) : string :=
  match n with
  | Some l => py_str l
  | None => ""
  end.

(** What the engine promises of [rename]: the series it returns carries the
    name it was given. *)
Hypothesis rename_names : forall s n copy r,
  pd_rename s n copy = Ok r -> pd_name r = n.

Lemma _rename_names (self : Series) (s : PObj) (n : option label) (r : PObj) :
  Py.outcome (_rename self s n) = Ok r -> pd_name r = n.
Proof.
  unfold _rename. destruct (_use_copy_false self); unfold call, Py.outcome; simpl;
    apply rename_names.
Qed.

Lemma renamed_outcome (self : Series) (s : PObj) (n : option label) (r : Series) :
  Py.outcome (do x <- _rename self s n; ret (_from_series self x)) = Ok r ->
  pd_name (_series r) = n /\ name r = name_string n /\
  _implementation r = _implementation self.
Proof.
  destruct (_rename self s n) as [t [x|e]] eqn:Hr; unfold bind, ret, Py.outcome;
    simpl; [|discriminate].
  intros H. injection H as <-.
  assert (Hx : pd_name x = n).
  { apply (_rename_names self s). now rewrite Hr. }
  simpl. rewrite Hx. now repeat split.
Qed.

Lemma dunder_keeps_name (method : string) (self : Series) (other : Arg)
    (r : Series) :
  Py.outcome (dunder method self other) = Ok r ->
  pd_name (_series r) = pd_name (_series self) /\
  name r = name_string (pd_name (_series self)) /\
  _implementation r = _implementation self.
Proof.
  unfold dunder, lift.
  destruct (validate_column_comparand _ other) as [o|e]; [|discriminate].
  unfold call. cbn [bind].
  destruct (pd_dunder method (_series self) o) as [x|e]; [|discriminate].
  intros H. apply (renamed_outcome self x).
  destruct (do x0 <- _rename self x (pd_name (_series self));
            ret (_from_series self x0)) as [t res] eqn:Hd.
  unfold Py.outcome in *. simpl in *. exact H.
Qed.

(** A binary operator gives the result the native name of its left operand
    back, so the adapter name of the result is the string form of that name
    (the name of [self], when [self] was made by the class) and the
    implementation tag is that of [self]. *)
Theorem binary_operators_keep_name (series : PObj) (implementation : string)
    (other : Arg) :
  Forall (fun op => forall r,
            Py.outcome (snd op (__init__ series implementation) other) = Ok r ->
            name r = name (__init__ series implementation) /\
            pd_name (_series r) = pd_name series /\
            _implementation r = implementation)
         binary_operators.
Proof.
  unfold binary_operators.
  repeat (constructor;
          [intros r Hr;
           destruct (dunder_keeps_name _ (__init__ series implementation) other r Hr)
             as (H1 & H2 & H3); repeat split; assumption |]).
  constructor.
Qed.

(** [rename] and [alias] give the result the name asked for.  [sort] keeps
    the adapter name but not the native one: it renames the sorted series to
    the adapter name, a string, so an unnamed native series comes back named
    with the empty string and an integer label comes back as its decimal
    form. *)
Theorem names_after_rename_alias_sort (series : PObj) (implementation : string)
    (new_name : string) (descending : bool) :
  (forall r, Py.outcome (rename (__init__ series implementation) new_name) = Ok r ->
     name r = new_name /\ pd_name (_series r) = Some (LStr new_name)) /\
  (forall r, Py.outcome (alias (__init__ series implementation) new_name) = Ok r ->
     name r = new_name /\ pd_name (_series r) = Some (LStr new_name)) /\
  (forall r, Py.outcome (sort (__init__ series implementation) descending) = Ok r ->
     name r = name (__init__ series implementation) /\
     pd_name (_series r)
     = Some (LStr (name_string (pd_name series)))).
Proof.
  split; [|split].
  - intros r Hr. apply renamed_outcome in Hr as (H1 & H2 & _). now split.
  - intros r Hr. apply renamed_outcome in Hr as (H1 & H2 & _). now split.
  - intros r. unfold sort, call. cbn [bind].
    destruct (pd_sort_values _ _) as [x|e]; [|discriminate].
    destruct (pd_rename x _ None) as [y|e] eqn:Hy; [|discriminate].
    unfold Py.outcome. simpl. intros H. injection H as <-.
    apply rename_names in Hy. simpl. rewrite Hy. now split.
Qed.

(** [filter] and [zip_with] validate before they call: a rejected mask is
    the outcome of either with no native call and, in [zip_with], before the
    other operand is looked at; a rejected second operand is the outcome of
    [zip_with] with no native call; and when both pass, the engine is called
    exactly once. *)
Theorem filter_zip_with_validate_first (self : Series) (mask other : Arg) :
  (forall e, validate_column_comparand (pd_index (_series self)) mask = Raise e ->
     filter self mask = raise e /\ zip_with self mask other = raise e) /\
  (forall m e, validate_column_comparand (pd_index (_series self)) mask = Ok m ->
     validate_column_comparand (pd_index (_series self)) other = Raise e ->
     zip_with self mask other = raise e) /\
  (forall m o, validate_column_comparand (pd_index (_series self)) mask = Ok m ->
     validate_column_comparand (pd_index (_series self)) other = Ok o ->
     trace (filter self mask) = [Native "loc"] /\
     trace (zip_with self mask other) = [Native "where"]).
Proof.
  unfold filter, zip_with, lift. split; [|split].
  - intros e ->. now split.
  - intros m e -> ->. reflexivity.
  - intros m o -> ->. unfold call, trace. cbn [bind].
    destruct (pd_loc _ _), (pd_where _ _ _); now split.
Qed.

End Routing.

End PandasRest.

(** ** The name of an adapter series *)

Section Names.

Context {NObj Arg Version DType NativeDType : Type}.
Context {E : Polars.PolarsEngine NObj Arg Version DType NativeDType}.
Context {PObj PArg Index PDtype : Type}.
Context {P : Pandas.PandasEngine PObj PArg Index PDtype}.

Variable pd_loc : PObj -> PObj -> result PObj.
Variable pd_where : PObj -> PObj -> PObj -> result PObj.








End Names.

(** ** The rest of the adapters on concrete inputs *)

Module MoreExamples.

Import Polars.native.
Import Examples.

(** [Implementation.POLARS.to_native_namespace()] is the module [polars]. *)
Definition to_native_namespace (i : Polars.Implementation) : string :=
  match i with
  | Polars.POLARS => "polars"
  | Polars.PANDAS => "pandas"
  | Polars.MODIN => "modin.pandas"
  | Polars.CUDF => "cudf"
  end.

Definition same_kind (a b : value) : bool :=
  match a, b with
  | I _, I _ | F _, F _ | S _, S _ | B _, B _ => true
  | _, _ => false
  end.

(** The engine's [__contains__]: a value of another kind than the cells is
    refused with its [InvalidOperationError]. *)
Definition contains (o : obj) (x : arg) : result bool :=
  match o, x with
  | OSeries s, Plain (OScalar (Some v)) =>
      if forallb (same_kind v) (Polars.pl.non_nulls (Polars.pl.cells s))
      then Ok (existsb (value_eqb v) (Polars.pl.non_nulls (Polars.pl.cells s)))
      else Raise (NativeException "InvalidOperationError")
  | OSeries s, Plain (OScalar None) =>
      Ok (negb (Nat.eqb (Polars.pl.null_count (Polars.pl.cells s)) 0))
  | _, _ => Raise (TypeError "unsupported operand")
  end.

Definition type_repr (x : arg) : string :=
  match x with
  | Plain (OScalar (Some (I _))) => "<class 'int'>"
  | Plain (OScalar (Some (F _))) => "<class 'float'>"
  | Plain (OScalar (Some (S _))) => "<class 'str'>"
  | Plain (OScalar (Some (B _))) => "<class 'bool'>"
  | Plain (OScalar None) => "<class 'NoneType'>"
  | Plain (OSeries _) => "<class 'polars.series.series.Series'>"
  | Plain (OFrame _) => "<class 'polars.dataframe.frame.DataFrame'>"
  | Wrapped _ => "<class 'narwhals._polars.series.PolarsSeries'>"
  end.

Definition dtype_repr (d : dtype) : string :=
  match d with
  | Int64 => "Int64"
  | Float64 => "Float64"
  | String => "String"
  | Boolean => "Boolean"
  | Array => "Array"
  end.

(** Dummies of an integer series: one 0/1 column per distinct cell, the
    null column first, then the values in increasing order. *)
Fixpoint dedupe (l : list Z) : list Z :=
  match l with
  | [] => []
  | x :: l' => x :: List.filter (fun y => negb (Z.eqb x y)) (dedupe l')
  end.

Definition cell_is (v : option Z) (c : option Z) : Z :=
  match v, c with
  | Some x, Some y => if Z.eqb x y then 1 else 0
  | None, None => 1
  | _, _ => 0
  end.

Definition categories (s : Polars.pl.Series Z) : list (option Z) :=
  (if Nat.eqb (Polars.pl.null_count (Polars.pl.cells s)) 0 then [] else [None])
  ++ map Some (dedupe (sort_Z (Polars.pl.non_nulls (Polars.pl.cells s)))).

Definition dummy_column (s : Polars.pl.Series Z) (separator : string)
    (v : option Z) : string * list Z :=
  (Polars.pl.name s +:+ separator
   +:+ match v with Some z => repr_int z | None => "null" end,
   map (cell_is v) (Polars.pl.cells s)).

Definition has_nulls (s : Polars.pl.Series Z) : result bool :=
  Ok (negb (Nat.eqb (Polars.pl.null_count (Polars.pl.cells s)) 0)).

Definition dummies_legacy (s : Polars.pl.Series Z) (separator : string)
    : result (list (string * list Z)) :=
  Ok (map (dummy_column s separator) (categories s)).

Definition dummies (s : Polars.pl.Series Z) (separator : string) (drop_first : bool)
    : result (list (string * list Z)) :=
  Ok (map (dummy_column s separator)
        (if drop_first
         then (if Nat.eqb (Polars.pl.null_count (Polars.pl.cells s)) 0 then [] else [None])
              ++ map Some (tail (dedupe (sort_Z (Polars.pl.non_nulls (Polars.pl.cells s)))))
         else categories s)).

Fixpoint frame_select (f : list (string * list Z)) (names : list string)
    : result (list (string * list Z)) :=
  match names with
  | [] => Ok []
  | n :: names' =>
      match List.find (fun kc => String.eqb (fst kc) n) f with
      | Some kc => let* r := frame_select f names' in Ok (kc :: r)
      | None => Raise (NativeException "ColumnNotFoundError")
      end
  end.

Definition cast_all_int8 (f : list (string * list Z)) : result (list (string * list Z)) :=
  if forallb (fun kc => forallb (fun z => Z.leb (-128) z && Z.leb z 127) (snd kc)) f
  then Ok f
  else Raise (NativeException "InvalidOperationError").

(** [cum_sum] of a Boolean series and [cum_count]. *)
Definition is_true (c : option bool) : bool :=
  match c with Some true => true | _ => false end.

Definition cum_sum (reverse : bool) (m : Polars.pl.Series bool) : Polars.pl.Series Z :=
  Polars.pl.mkSeries (Polars.pl.name m)
    (map Some (PolarsRest.cumulative reverse (map is_true (Polars.pl.cells m)))).

Definition cum_count_native (reverse : bool) (s : Polars.pl.Series Z)
    : Polars.pl.Series Z :=
  Polars.pl.mkSeries (Polars.pl.name s)
    (map Some (PolarsRest.cumulative reverse
                 (map (fun c => negb (Polars.pl.is_none c)) (Polars.pl.cells s)))).

Lemma cum_sum_counts (reverse : bool) (m : Polars.pl.Series bool) (flags : list bool) :
  Polars.pl.cells m = map Some flags ->
  cum_sum reverse m
  = Polars.pl.mkSeries (Polars.pl.name m)
      (map Some (PolarsRest.cumulative reverse flags)).
Proof.
  intros H. unfold cum_sum. rewrite H.
  assert (Hflags : map is_true (map Some flags) = flags).
  { clear H. induction flags as [|b r IH]; simpl; [reflexivity |].
    rewrite IH. destruct b; reflexivity. }
  now rewrite Hflags.
Qed.

(** Two stores after one and two [scatter] calls. *)
Definition after_first : gmap positive (list (option Z)) * result (Polars.PolarsSeries positive unit) :=
  Polars.scatter scatter_extract_native scatter_data
    (Polars.__init__ 1%positive [1; 0; 0] tt) [0%nat] (SPlain (One (Some 9))) store_1.

Definition after_second : gmap positive (list (option Z)) * result (Polars.PolarsSeries positive unit) :=
  Polars.scatter scatter_extract_native scatter_data
    (Polars.__init__ 2%positive [1; 0; 0] tt) [1%nat] (SPlain (One (Some 8)))
    (fst after_first).

(** The pandas model's [loc] with a Boolean mask and [where]. *)
Fixpoint keep (l m : list Pandas.pd.cell) : list Pandas.pd.cell :=
  match l, m with
  | c :: l', Pandas.pd.Bool true :: m' => c :: keep l' m'
  | _ :: l', _ :: m' => keep l' m'
  | _, _ => []
  end.

Definition pd_loc (ser mask : Pandas.pd.obj) : result Pandas.pd.obj :=
  match ser, mask with
  | Pandas.pd.OSeries s, Pandas.pd.OSeries m =>
      if Nat.eqb (length (Pandas.pd.cells s)) (length (Pandas.pd.cells m))
      then Ok (Pandas.pd.OSeries
                 (Pandas.pd.mkSeries (Pandas.pd.name s) (Pandas.pd.dtype_ s)
                    (keep (Pandas.pd.cells s) (Pandas.pd.cells m))))
      else Raise (NativeException "IndexingError")
  | _, _ => Raise (NativeException "KeyError")
  end.

Fixpoint choose (l m o : list Pandas.pd.cell) : list Pandas.pd.cell :=
  match l, m, o with
  | c :: l', Pandas.pd.Bool true :: m', _ :: o' => c :: choose l' m' o'
  | _ :: l', _ :: m', x :: o' => x :: choose l' m' o'
  | _, _, _ => []
  end.

Definition pd_where (ser mask other : Pandas.pd.obj) : result Pandas.pd.obj :=
  match ser, mask, other with
  | Pandas.pd.OSeries s, Pandas.pd.OSeries m, Pandas.pd.OSeries o =>
      Ok (Pandas.pd.OSeries
            (Pandas.pd.mkSeries (Pandas.pd.name s) (Pandas.pd.dtype_ s)
               (choose (Pandas.pd.cells s) (Pandas.pd.cells m) (Pandas.pd.cells o))))
  | Pandas.pd.OSeries s, Pandas.pd.OSeries m, Pandas.pd.OScalar x =>
      Ok (Pandas.pd.OSeries
            (Pandas.pd.mkSeries (Pandas.pd.name s) (Pandas.pd.dtype_ s)
               (choose (Pandas.pd.cells s) (Pandas.pd.cells m)
                  (repeat x (length (Pandas.pd.cells s))))))
  | _, _, _ => Raise (NativeException "TypeError")
  end.

Lemma pd_rename_names (s : Pandas.pd.obj) (n : option Pandas.label)
    (copy : option bool) (r : Pandas.pd.obj) :
  Pandas.pd.rename s n copy = Ok r -> Pandas.pd.name_of r = n.
Proof. destruct s; simpl; [|discriminate]. intros H. now injection H as <-. Qed.

Definition pd_mask (l : list bool) : Pandas.PandasSeries Pandas.pd.obj :=
  Pandas.pd.wrap (Pandas.pd.mkSeries None Pandas.pd.bool_ (map Pandas.pd.Bool l)).

(** At 0.20.3, which [ewm_mean] refuses, [2 ** s] is aliased; at 1.0.0,
    which it lets through, [sort] is the engine's. *)
Lemma gate_example :
  trace (Polars.__rpow__ (E := engine) (ints_1_3 [0; 20; 3])
           (Plain (OScalar (Some (I 2)))))
  = [Native "__rpow__"; Native "alias"] /\
  Polars.sort sort_legacy sort (Polars.__init__ with_nulls [1; 0; 0] tt) true true
  = Ok (Polars.__init__ (sort true true with_nulls) [1; 0; 0] tt).
Proof.
  destruct (PolarsRest.gate_parts_version_branches (E := engine)
              cum_sum cum_count_native sort_legacy sort
              has_nulls dummies_legacy dummies (map fst) frame_select cast_all_int8
              Z.eqb arrange [0; 20; 3] tt
              (OSeries (Polars.pl.mkSeries "a" [Some (I 1); Some (I 2); Some (I 3)]))
              half [] [] None (Plain (OScalar (Some (I 2))))
              with_nulls with_nulls false
              true false false false true true true None "_")
    as [Hold _].
  destruct (PolarsRest.gate_parts_version_branches (E := engine)
              cum_sum cum_count_native sort_legacy sort
              has_nulls dummies_legacy dummies (map fst) frame_select cast_all_int8
              Z.eqb arrange [1; 0; 0] tt
              (OSeries (Polars.pl.mkSeries "a" [Some (I 1); Some (I 2); Some (I 3)]))
              half [] [] None (Plain (OScalar (Some (I 2))))
              with_nulls with_nulls false
              true false false false true true true None "_")
    as [_ Hnew].
  split.
  - destruct (Hold ltac:(eexists; reflexivity)) as (_ & _ & Hrpow).
    exact (Hrpow _ eq_refl).
  - exact (proj1 (proj2 (Hnew eq_refl))).
Defined.

Lemma keep_identity_example :
  PolarsRest.same_identity (ints_1_3 [1; 0; 0])
    (wrap "a" [Some (F 1); Some (F 1.5); Some (F 2.25)] [1; 0; 0]).
Proof.
  destruct (PolarsRest.results_keep_identity (E := engine) (ints_1_3 [1; 0; 0])
              (Plain (OScalar (Some (I 1)))) half [] [] None "max" [] [])
    as (_ & Hewm & _).
  exact (Hewm _ eq_refl).
Defined.

Lemma native_namespace_example :
  PolarsRest.__native_namespace__ to_native_namespace
    (Polars._from_native_series
       (Polars._change_version (ints_1_3 [1; 0; 0]) tt) (OScalar None))
  = PolarsRest.Return "polars".
Proof.
  exact (PolarsRest.native_namespace_never_asserts to_native_namespace _
           (PolarsRest.built_from_native_series _ _
              (PolarsRest.built_change_version _ _
                 (PolarsRest.built_init _ _ _)))).
Defined.

Lemma refusal_example :
  PolarsRest.refused (Polars.ewm_mean (E := engine) (ints_1_3 [0; 9; 9]) half).
Proof.
  destruct (PolarsRest.refusal_downward_closed (E := engine)
              (OSeries (Polars.pl.mkSeries "a" [Some (I 1); Some (I 2); Some (I 3)]))
              tt [0; 9; 9] [0; 20; 0] half [] [] None eq_refl) as [Hewm _].
  apply Hewm. eexists. reflexivity.
Defined.

Lemma contains_example :
  exists msg,
    Py.outcome
      (PolarsRest.__contains__ (E := engine) contains type_repr dtype_repr
         (ints_1_3 [1; 0; 0]) (Plain (OScalar (Some (S "x")))))
    = Raise (InvalidOperationError msg).
Proof.
  destruct (PolarsRest.contains_translates_invalid_operation (E := engine)
              contains type_repr dtype_repr
              (ints_1_3 [1; 0; 0]) (Plain (OScalar (Some (S "x")))))
    as (_ & _ & Hpl & _).
  exact (Hpl eq_refl).
Defined.

Lemma scatter_twice_example :
  fst after_second !! 2%positive = fst after_first !! 2%positive /\
  fst after_second !! 1%positive = Some [Some 1; Some 2; Some 3].
Proof.
  assert (H1 : after_first
               = (fst after_first, Ok (Polars.__init__ 2%positive [1; 0; 0] tt))).
  { apply injective_projections; [reflexivity | vm_compute; reflexivity]. }
  assert (H2 : after_second
               = (fst after_second, Ok (Polars.__init__ 3%positive [1; 0; 0] tt))).
  { apply injective_projections; [reflexivity | vm_compute; reflexivity]. }
  destruct (PolarsRest.scatter_results_independent
              scatter_extract_native scatter_data
              (Polars.__init__ 1%positive [1; 0; 0] tt)
              (Polars.__init__ 2%positive [1; 0; 0] tt)
              (Polars.__init__ 2%positive [1; 0; 0] tt)
              (Polars.__init__ 3%positive [1; 0; 0] tt)
              [0%nat] [1%nat] (SPlain (One (Some 9))) (SPlain (One (Some 8)))
              store_1 (fst after_first) (fst after_second)
              [Some 1; Some 2; Some 3] [Some 9; Some 2; Some 3]
              eq_refl H1 ltac:(vm_compute; reflexivity) H2)
    as (_ & _ & _ & _ & Hfirst & Hself).
  split; [exact Hfirst | exact Hself].
Defined.

(** [to_dummies(drop_first=True)] at 0.20.14: on [[1, 2]] the column of 1
    goes; on [[null, null]] there is no column at position 1. *)
Lemma to_dummies_example :
  PolarsRest.to_dummies has_nulls dummies_legacy dummies (map fst) frame_select
    cast_all_int8
    (Polars.__init__ (Polars.pl.mkSeries "x" [Some 1; Some 2]) [0; 20; 14] tt) "_" true
  = PolarsRest.Return
      (Polars.mkPolarsDataFrame [("x_2", [0; 1])] [0; 20; 14] tt) /\
  PolarsRest.to_dummies has_nulls dummies_legacy dummies (map fst) frame_select
    cast_all_int8
    (Polars.__init__ (Polars.pl.mkSeries "x" [None; None]) [0; 20; 14] tt) "_" true
  = PolarsRest.Throw (PolarsRest.IndexError "pop index out of range").
Proof.
  destruct (PolarsRest.to_dummies_legacy_drop_first has_nulls dummies_legacy dummies
              (map fst) frame_select cast_all_int8
              (Polars.__init__ (Polars.pl.mkSeries "x" [Some 1; Some 2]) [0; 20; 14] tt)
              "_" false [("x_1", [1; 0]); ("x_2", [0; 1])] eq_refl eq_refl eq_refl)
    as (_ & _ & Hin & _).
  destruct (PolarsRest.to_dummies_legacy_drop_first has_nulls dummies_legacy dummies
              (map fst) frame_select cast_all_int8
              (Polars.__init__ (Polars.pl.mkSeries "x" [None; None]) [0; 20; 14] tt)
              "_" true [("x_null", [1; 1])] eq_refl eq_refl eq_refl)
    as (_ & Hout & _).
  split.
  - rewrite (Hin ltac:(simpl; lia)). reflexivity.
  - exact (Hout ltac:(discriminate) ltac:(simpl; lia)).
Defined.

Lemma cum_count_example :
  Polars._native_series
    (PolarsRest.cum_count cum_sum cum_count_native
       (Polars.__init__ with_nulls [0; 20; 3] tt) false)
  = Polars._native_series
      (PolarsRest.cum_count cum_sum cum_count_native
         (Polars.__init__ with_nulls [0; 20; 4] tt) false).
Proof.
  exact (proj1 (PolarsRest.cum_count_same_on_both_branches cum_sum cum_count_native
                  cum_sum_counts (fun reverse s => eq_refl)
                  with_nulls tt [0; 20; 3] [0; 20; 4] false eq_refl eq_refl)).
Defined.

Lemma keep_name_example :
  Forall (fun op => forall r,
            Py.outcome (snd op
                          (Pandas.__init__ (E := Pandas.pd.engine)
                             (Pandas.pd.OSeries
                                (Pandas.pd.mkSeries (Some (Pandas.LStr "x"))
                                   Pandas.pd.int64
                                   [Pandas.pd.Int 1; Pandas.pd.Int 2; Pandas.pd.Int 3]))
                             "pandas")
                          (Pandas.pd.Scalar (Pandas.pd.Int 1))) = Ok r ->
            Pandas.name r = "x" /\
            Pandas.pd.name_of (Pandas._series r) = Some (Pandas.LStr "x") /\
            Pandas._implementation r = "pandas")
         (Pandas.binary_operators (E := Pandas.pd.engine)).
Proof.
  exact (PandasRest.binary_operators_keep_name (E := Pandas.pd.engine)
           pd_rename_names _ "pandas" (Pandas.pd.Scalar (Pandas.pd.Int 1))).
Defined.

(** Sorting an unnamed series gives a native series named with the empty
    string; renaming it gives the name asked for. *)
Definition pd_unnamed : Pandas.pd.obj :=
  Pandas.pd.OSeries
    (Pandas.pd.mkSeries None Pandas.pd.int64
       [Pandas.pd.Int 2; Pandas.pd.Int 1; Pandas.pd.Int 3]).

Lemma sort_names_example :
  (exists r,
     Py.outcome (Pandas.sort (E := Pandas.pd.engine)
                   (Pandas.__init__ (E := Pandas.pd.engine) pd_unnamed "pandas") true)
     = Ok r /\
     Pandas.name r = "" /\
     Pandas.pd.name_of (Pandas._series r) = Some (Pandas.LStr "")) /\
  (exists r,
     Py.outcome (PandasRest.rename (E := Pandas.pd.engine)
                   (Pandas.__init__ (E := Pandas.pd.engine) pd_unnamed "pandas") "y")
     = Ok r /\
     Pandas.name r = "y" /\
     Pandas.pd.name_of (Pandas._series r) = Some (Pandas.LStr "y")).
Proof.
  destruct (PandasRest.names_after_rename_alias_sort (E := Pandas.pd.engine)
              pd_rename_names pd_unnamed "pandas" "y" true)
    as (Hrename & _ & Hsort).
  split.
  - eexists. split; [vm_compute; reflexivity |].
    exact (Hsort _ eq_refl).
  - eexists. split; [vm_compute; reflexivity |].
    exact (Hrename _ eq_refl).
Defined.

(** A mask of another length is rejected before [loc] or [where] is
    called. *)
Lemma filter_validates_example :
  trace (PandasRest.filter (E := Pandas.pd.engine) pd_loc (pd_ints [1; 2; 3])
           (Pandas.pd.SameEngine (pd_mask [true; false]))) = [] /\
  trace (PandasRest.filter (E := Pandas.pd.engine) pd_loc (pd_ints [1; 2; 3])
           (Pandas.pd.SameEngine (pd_mask [true; false; true]))) = [Native "loc"].
Proof.
  split.
  - destruct (PandasRest.filter_zip_with_validate_first (E := Pandas.pd.engine)
                pd_loc pd_where (pd_ints [1; 2; 3])
                (Pandas.pd.SameEngine (pd_mask [true; false]))
                (Pandas.pd.Scalar (Pandas.pd.Int 0))) as (Hbad & _).
    destruct (Hbad _ eq_refl) as [-> _]. reflexivity.
  - destruct (PandasRest.filter_zip_with_validate_first (E := Pandas.pd.engine)
                pd_loc pd_where (pd_ints [1; 2; 3])
                (Pandas.pd.SameEngine (pd_mask [true; false; true]))
                (Pandas.pd.Scalar (Pandas.pd.Int 0))) as (_ & _ & Hgood).
    exact (proj1 (Hgood _ _ eq_refl eq_refl)).
Defined.





End MoreExamples.
